(** * Research orchestrator: a shallow embedding of
      [claudeagenttry2/research_orchestrator.py] and its verified properties.

    The Python class [ResearchOrchestrator] refines a user query into three
    search queries, runs one search-and-scrape branch per query, joins the
    branches and asks a language model for a report.  Everything the class
    talks to (the language model, the search provider, the JSON decoder, the
    clock, the scheduler) is collected in a record [world]; the methods are
    functions of the orchestrator's fields and of that record.

    Conventions.
    - Values that reach the code from outside (decoded JSON) are kept
      dynamically typed, as Python has them: type [json], with the
      [AttributeError]/[TypeError]/[KeyError] Python raises on a value of the
      wrong shape.
    - Dict literals the code builds itself are records; a key the literal does
      not contain is an [option] field equal to [None].
    - A Python [str] is a [string]; its characters are code points below 256.
    - [log_status] only prints: the messages are not modelled, the evaluation
      of their arguments (which may raise) is.
    - The world answers a call by its arguments: the same request gets the
      same answer throughout a run. *)

From stdpp Require Import gmap strings list fin_maps pretty sorting.
From Stdlib Require Import Ascii.

Set Warnings "-register-all".
Set Default Proof Using "Type".
Local Open Scope Z_scope.

(** ** Python values and exceptions *)

(** What [json.loads] and [response.json()] produce.  A float is kept as its
    literal together with its truth value (whether it differs from [0.0]). *)
Inductive json :=
  | JNull
  | JBool (b : bool)
  | JInt (z : Z)
  | JFloat (nonzero : bool) (literal : string)
  | JStr (s : string)
  | JArr (l : list json)
  | JObj (m : gmap string json).

Inductive exn_class :=
  | JSONDecodeError
  | KeyError
  | IndexError
  | TypeError
  | AttributeError
  | HTTPError
  | OtherError (name : string).

(** An exception (a subclass of [Exception]): its class and [str(e)]. *)
Record exn := Exn { exn_class_of : exn_class; exn_str : string }.

Inductive outcome (A : Type) :=
  | Returned (a : A)
  | Raised (e : exn).
Arguments Returned {A} a.
Arguments Raised {A} e.

Definition obind {A B} (m : outcome A) (f : A → outcome B) : outcome B :=
  match m with
  | Returned a => f a
  | Raised e => Raised e
  end.

Notation "x ←! m ; k" := (obind m (λ x, k))
  (at level 20, m at level 100, k at level 200, right associativity,
   only parsing).
Notation "m ;;! k" := (obind m (λ _, k))
  (at level 100, k at level 200, right associativity, only parsing).

Definition is_JSONDecodeError (e : exn) : bool :=
  match exn_class_of e with JSONDecodeError => true | _ => false end.

(** ** Python operations on dynamically typed values *)

Definition type_name (v : json) : string :=
  match v with
  | JNull => "NoneType"
  | JBool _ => "bool"
  | JInt _ => "int"
  | JFloat _ _ => "float"
  | JStr _ => "str"
  | JArr _ => "list"
  | JObj _ => "dict"
  end.

(** [bool(v)], the test of [if v:] and [not v]. *)
Definition truthy (v : json) : bool :=
  match v with
  | JNull => false
  | JBool b => b
  | JInt z => negb (z =? 0)
  | JFloat nonzero _ => nonzero
  | JStr s => negb (String.eqb s "")
  | JArr l => match l with [] => false | _ => true end
  | JObj m => negb (Nat.eqb (size m) 0)
  end.

(** [v.get(key, dflt)]: only a dict has the method. *)
Definition py_get (v : json) (key : string) (dflt : json) : outcome json :=
  match v with
  | JObj m => Returned (default dflt (m !! key))
  | _ => Raised (Exn AttributeError
                  ("'" +:+ type_name v +:+ "' object has no attribute 'get'"))
  end.

(** [v[key]] for a string key. *)
Definition py_item (v : json) (key : string) : outcome json :=
  match v with
  | JObj m =>
      match m !! key with
      | Some x => Returned x
      | None => Raised (Exn KeyError ("'" +:+ key +:+ "'"))
      end
  | JStr _ => Raised (Exn TypeError "string indices must be integers")
  | JArr _ => Raised (Exn TypeError "list indices must be integers or slices, not str")
  | _ => Raised (Exn TypeError
                  ("'" +:+ type_name v +:+ "' object is not subscriptable"))
  end.

(** [len(v)]. *)
Definition py_len (v : json) : outcome nat :=
  match v with
  | JStr s => Returned (String.length s)
  | JArr l => Returned (length l)
  | JObj m => Returned (size m)
  | _ => Raised (Exn TypeError
                  ("object of type '" +:+ type_name v +:+ "' has no len()"))
  end.

(** The stop index of the slice [[:n]] on a sequence of length [len]:
    a negative [n] counts from the end. *)
Definition slice_stop (n : Z) (len : nat) : nat :=
  if n <? 0 then Z.to_nat (Z.max 0 (Z.of_nat len + n)) else Z.to_nat n.

Definition list_slice_to {A} (n : Z) (l : list A) : list A :=
  take (slice_stop n (length l)) l.

Fixpoint str_take (n : nat) (s : string) : string :=
  match n, s with
  | S k, String c r => String c (str_take k r)
  | _, _ => ""
  end.

Definition str_slice_to (n : Z) (s : string) : string :=
  str_take (slice_stop n (String.length s)) s.

(** [v[:n]].  A dict is not sliceable ([TypeError] up to CPython 3.11). *)
Definition py_slice_to (v : json) (n : Z) : outcome json :=
  match v with
  | JStr s => Returned (JStr (str_slice_to n s))
  | JArr l => Returned (JArr (list_slice_to n l))
  | JObj _ => Raised (Exn TypeError "unhashable type: 'slice'")
  | _ => Raised (Exn TypeError
                  ("'" +:+ type_name v +:+ "' object is not subscriptable"))
  end.

Fixpoint str_chars (s : string) : list json :=
  match s with
  | "" => []
  | String c r => JStr (String c "") :: str_chars r
  end.

(** The elements a [for] loop draws from the slice [v[:n]], in order: the
    elements of a list, the characters of a string. *)
Definition py_slice_items (v : json) (n : Z) : outcome (list json) :=
  sliced ←! py_slice_to v n;
  match sliced with
  | JStr s => Returned (str_chars s)
  | JArr l => Returned l
  | _ => Raised (Exn TypeError
                  ("'" +:+ type_name sliced +:+ "' object is not iterable"))
  end.


(** ** Python string methods *)

(** [str.isspace] on one character (code points below 256). *)
Definition py_isspace (c : ascii) : bool :=
  let n := nat_of_ascii c in
  ((9 <=? n) && (n <=? 13) || (28 <=? n) && (n <=? 32)
   || (n =? 133) || (n =? 160))%nat.

Fixpoint py_lstrip (s : string) : string :=
  match s with
  | String c r => if py_isspace c then py_lstrip r else s
  | "" => ""
  end.

Fixpoint py_rstrip (s : string) : string :=
  match s with
  | String c r =>
      match py_rstrip r with
      | "" => if py_isspace c then "" else String c ""
      | r' => String c r'
      end
  | "" => ""
  end.

(** [s.strip()]. *)
Definition py_strip (s : string) : string := py_rstrip (py_lstrip s).

(** [s.startswith(p)]. *)
Definition py_startswith (p s : string) : bool := String.prefix p s.

(** [s.split(sep)] for a non-empty [sep]: [skip] counts the characters of a
    separator that has just been matched and is still to be passed over,
    [cur] is the piece read so far. *)
Fixpoint split_go (sep : string) (skip : nat) (cur s : string) : list string :=
  match s with
  | "" => [cur]
  | String c r =>
      match skip with
      | S k => split_go sep k cur r
      | O =>
          if String.prefix sep s
          then cur :: split_go sep (String.length sep - 1) "" r
          else split_go sep 0 (cur +:+ String c "") r
      end
  end.

Definition py_split (sep s : string) : list string := split_go sep 0 "" s.

(** [l[i]] for a non-negative literal index. *)
Definition py_index {A} (l : list A) (i : nat) : outcome A :=
  match l !! i with
  | Some x => Returned x
  | None => Raised (Exn IndexError "list index out of range")
  end.

(** ** A JSON decoder

    [json.loads] belongs to Python's standard library; the orchestrator
    receives it through [world].  [Json.loads] is a decoder for JSON texts
    whose characters and escapes stay below code point 256, used to run the
    model on concrete texts.  The wording of its error message is not
    Python's. *)
Module Json.

Definition is_ws (c : ascii) : bool :=
  match c with
  | " " | "009" | "010" | "013" => true
  | _ => false
  end%char.

Fixpoint skip_ws (s : string) : string :=
  match s with
  | String c r => if is_ws c then skip_ws r else s
  | "" => ""
  end.

Definition is_digit (c : ascii) : bool :=
  let n := nat_of_ascii c in ((48 <=? n) && (n <=? 57))%nat.

Definition hex_value (c : ascii) : option nat :=
  let n := nat_of_ascii c in
  if ((48 <=? n) && (n <=? 57))%nat then Some (n - 48)%nat
  else if ((65 <=? n) && (n <=? 70))%nat then Some (n - 55)%nat
  else if ((97 <=? n) && (n <=? 102))%nat then Some (n - 87)%nat
  else None.

Definition snoc (s : string) (c : ascii) : string := s +:+ String c "".

(** The body of a string literal, after its opening quote (character 34). *)
Fixpoint str_lit (acc s : string) : option (string * string) :=
  match s with
  | "" => None
  | String c r =>
      if Ascii.eqb c "034" then Some (acc, r)
      else if Ascii.eqb c "\" then
        match r with
        | String e r' =>
            match e with
            | "034"%char => str_lit (snoc acc "034") r'
            | "\"%char => str_lit (snoc acc "\") r'
            | "/"%char => str_lit (snoc acc "/") r'
            | "b"%char => str_lit (snoc acc "008") r'
            | "f"%char => str_lit (snoc acc "012") r'
            | "n"%char => str_lit (snoc acc "010") r'
            | "r"%char => str_lit (snoc acc "013") r'
            | "t"%char => str_lit (snoc acc "009") r'
            | "u"%char =>
                match r' with
                | String h1 (String h2 (String h3 (String h4 r''))) =>
                    match hex_value h1, hex_value h2, hex_value h3, hex_value h4 with
                    | Some 0%nat, Some 0%nat, Some a, Some b =>
                        str_lit (snoc acc (ascii_of_nat (16 * a + b))) r''
                    | _, _, _, _ => None
                    end
                | _ => None
                end
            | _ => None
            end
        | "" => None
        end
      else if (nat_of_ascii c <? 32)%nat then None
      else str_lit (snoc acc c) r
  end.

Fixpoint digits (acc s : string) : string * string :=
  match s with
  | String c r => if is_digit c then digits (snoc acc c) r else (acc, s)
  | "" => (acc, "")
  end.

Fixpoint digits_value (acc : Z) (s : string) : Z :=
  match s with
  | String c r => digits_value (10 * acc + Z.of_nat (nat_of_ascii c - 48)) r
  | "" => acc
  end.

(** The integer part: [0] or a digit sequence without leading zero. *)
Definition int_part (s : string) : option (string * string) :=
  match s with
  | String "0" r => Some ("0", r)
  | String c r => if is_digit c then Some (digits "" s) else None
  | "" => None
  end.

Definition frac_part (s : string) : option (string * string) :=
  match s with
  | String "." r =>
      match digits "" r with
      | ("", _) => None
      | (ds, r') => Some (ds, r')
      end
  | _ => None
  end.

(** The exponent: its sign, its digits, the rest. *)
Definition exp_part (s : string) : option (bool * string * string) :=
  match s with
  | String c r =>
      if Ascii.eqb c "e" || Ascii.eqb c "E" then
        let '(neg, r1) :=
          match r with
          | String "-" r1 => (true, r1)
          | String "+" r1 => (false, r1)
          | _ => (false, r)
          end in
        match digits "" r1 with
        | ("", _) => None
        | (ds, r') => Some (neg, ds, r')
        end
      else None
  | "" => None
  end.

(** Whether the float nearest to [m * 10^e] differs from [0.0]: everything
    up to half the least subnormal, [2^-1075], rounds to zero. *)
Definition float_nonzero (m e : Z) : bool :=
  negb (m =? 0) && ((0 <=? e) || (10 ^ (- e) <? m * 2 ^ 1075)).

Definition number (neg : bool) (s : string) : option (json * string) :=
  match int_part s with
  | None => None
  | Some (ip, r) =>
      let sign := if neg then "-" else "" in
      match frac_part r, exp_part (match frac_part r with Some (_, r') => r' | None => r end) with
      | None, None =>
          let v := digits_value 0 ip in
          Some (JInt (if neg then - v else v), r)
      | fp, ep =>
          let fd := match fp with Some (ds, _) => ds | None => "" end in
          let r1 := match fp with Some (_, r') => r' | None => r end in
          let '(ex, exlit, r2) :=
            match ep with
            | Some (eneg, ds, r') =>
                (if eneg then - digits_value 0 ds else digits_value 0 ds,
                 "e" +:+ (if eneg then "-" else "") +:+ ds, r')
            | None => (0, "", r1)
            end in
          let m := digits_value 0 (ip +:+ fd) in
          let lit := sign +:+ ip +:+ (match fp with Some _ => "." +:+ fd | None => "" end) +:+ exlit in
          Some (JFloat (float_nonzero m (ex - Z.of_nat (String.length fd))) lit, r2)
      end
  end.

Fixpoint str_drop (n : nat) (s : string) : string :=
  match n, s with
  | S k, String _ r => str_drop k r
  | _, _ => s
  end.

Definition keyword (kw : string) (v : json) (s : string) : option (json * string) :=
  if String.prefix kw s then Some (v, str_drop (String.length kw) s) else None.

Fixpoint value (fuel : nat) (s : string) {struct fuel} : option (json * string) :=
  match fuel with
  | O => None
  | S fuel' =>
      match s with
      | String "{" r =>
          match skip_ws r with
          | String "}" r' => Some (JObj ∅, r')
          | r' => members fuel' ∅ r'
          end
      | String "[" r =>
          match skip_ws r with
          | String "]" r' => Some (JArr [], r')
          | r' => elements fuel' [] r'
          end
      | String "034" r =>
          match str_lit "" r with
          | Some (str, r') => Some (JStr str, r')
          | None => None
          end
      | String "n" _ => keyword "null" JNull s
      | String "t" _ => keyword "true" (JBool true) s
      | String "f" _ => keyword "false" (JBool false) s
      | String "N" _ => keyword "NaN" (JFloat true "NaN") s
      | String "I" _ => keyword "Infinity" (JFloat true "Infinity") s
      | String "-" r =>
          match r with
          | String "I" _ => keyword "Infinity" (JFloat true "-Infinity") r
          | _ => number true r
          end
      | _ => number false s
      end
  end
with members (fuel : nat) (m : gmap string json) (s : string) {struct fuel}
    : option (json * string) :=
  match fuel with
  | O => None
  | S fuel' =>
      match s with
      | String "034" r =>
          match str_lit "" r with
          | Some (key, r1) =>
              match skip_ws r1 with
              | String ":" r2 =>
                  match value fuel' (skip_ws r2) with
                  | Some (v, r3) =>
                      match skip_ws r3 with
                      | String "," r4 => members fuel' (<[key:=v]> m) (skip_ws r4)
                      | String "}" r4 => Some (JObj (<[key:=v]> m), r4)
                      | _ => None
                      end
                  | None => None
                  end
              | _ => None
              end
          | None => None
          end
      | _ => None
      end
  end
with elements (fuel : nat) (acc : list json) (s : string) {struct fuel}
    : option (json * string) :=
  match fuel with
  | O => None
  | S fuel' =>
      match value fuel' s with
      | Some (v, r) =>
          match skip_ws r with
          | String "," r' => elements fuel' (acc ++ [v]) (skip_ws r')
          | String "]" r' => Some (JArr (acc ++ [v]), r')
          | _ => None
          end
      | None => None
      end
  end.

Definition decode_error : exn := Exn JSONDecodeError "invalid JSON text".

(** [json.loads(s)]: one value, surrounded by optional white space. *)
Definition loads (s : string) : outcome json :=
  match value (2 * String.length s + 2) (skip_ws s) with
  | Some (v, r) =>
      match skip_ws r with
      | "" => Returned v
      | _ => Raised decode_error
      end
  | None => Raised decode_error
  end.

End Json.

(** ** Calls to the outside and the [io] monad

    A method that talks to the search provider, to the content fetcher or to
    the session storage yields, besides its outcome, the calls it made, in
    order.  A raised exception keeps the calls made before it.  The branches
    of the fan-out run concurrently: their calls reach the trace of the run
    interleaved, each branch's calls in the branch's own order. *)

(** The dict literals of [_run_research_subagent] (lines 327-335 and 303-308,
    342-348) and of [_execute_parallel_research] (lines 280-284). *)
Record Article := {
  position : nat;
  title : json;
  url : json;
  snippet : json;
  content_preview : json;
  content_length : nat;
  scraped : bool;
}.

Record BranchReport := {
  query_type : string;
  query : option json;
  num_articles : option nat;
  articles : list Article;
  error : option string;
  search_metadata : option json;
}.

(** What [save_json] and the report writer put on disk. *)
Inductive artifact :=
  | QueriesFile (queries : json)
  | ResultsFile (report : BranchReport)
  | MarkdownFile (text : string).

Inductive call :=
  | Search (query : json) (num : Z)
  | Fetch (url : json)
  | Mkdir (path : string)
  | WriteFile (path : string) (data : artifact).

Definition io (A : Type) : Type := list call * outcome A.

Definition ret {A} (a : A) : io A := ([], Returned a).

Definition raise {A} (e : exn) : io A := ([], Raised e).

Definition bind {A B} (m : io A) (f : A → io B) : io B :=
  match m with
  | (calls, Returned a) => let '(calls', o) := f a in (calls ++ calls', o)
  | (calls, Raised e) => (calls, Raised e)
  end.

(** [try: m except Exception as e: handler e]. *)
Definition try_except {A} (m : io A) (handler : exn → io A) : io A :=
  match m with
  | (calls, Raised e) => let '(calls', o) := handler e in (calls ++ calls', o)
  | done => done
  end.

Definition lift {A} (o : outcome A) : io A := ([], o).

(** One call to the outside, answered by [answer]. *)
Definition perform {A} (c : call) (answer : outcome A) : io A := ([c], answer).

Notation "x ← m ; k" := (bind m (λ x, k))
  (at level 20, m at level 100, k at level 200, right associativity,
   only parsing).
Notation "m ;; k" := (bind m (λ _, k))
  (at level 100, k at level 200, right associativity, only parsing).

Definition calls_of {A} (m : io A) : list call := m.1.
Definition outcome_of {A} (m : io A) : outcome A := m.2.

(** ** The world around the orchestrator *)

(** An HTTP response of the [requests] library, as far as the code reads it. *)
Record response := {
  status_code : Z;
  reason : string;
  response_url : string;
  response_json : outcome json;   (* response.json() *)
}.

(** The structure [_generate_report] hands to the language model
    (lines 388-409). *)
Record article_summary := {
  sum_title : json;
  sum_url : json;
  sum_snippet : json;
  sum_content_preview : json;
}.

Record branch_summary := {
  sum_query_type : string;
  sum_query : option json;
  sum_num_articles : nat;
  sum_articles : list article_summary;
}.

Record research_summary := {
  original_query : string;
  refined_queries : json;
  results_summary : list branch_summary;
}.

Record world := {
  (** [json.loads] *)
  json_loads : string → outcome json;
  (** the generation call of [_refine_queries] for a user query: the text
      blocks of the response, concatenated *)
  generate_queries : string → outcome string;
  (** [requests.post] to the search provider with payload [q], [num] *)
  requests_post : json → Z → outcome response;
  (** the generation call of [_fetch_url_content] for a URL *)
  generate_content : json → outcome string;
  (** the generation call of [_generate_report] *)
  generate_report : research_summary → outcome string;
  (** [datetime.now()], formatted for the session directory *)
  now : string;
  (** the order in which the tasks of the fan-out complete, by task index *)
  completion : list nat;
  (** the turns the scheduler gives the tasks of the fan-out, by task index:
      at each turn the task makes its next call *)
  schedule : list nat;
}.

(** The fields of [ResearchOrchestrator] set by [__init__]. *)
Record orchestrator := {
  serper_api_key : string;
  num_results : Z;
}.

(** ** The methods *)

(** [raise_for_status] of [requests]: 4xx and 5xx responses raise. *)
Definition raise_for_status (r : response) : outcome unit :=
  if (400 <=? status_code r) && (status_code r <? 500) then
    Raised (Exn HTTPError (pretty (status_code r) +:+ " Client Error: "
                           +:+ reason r +:+ " for url: " +:+ response_url r))
  else if (500 <=? status_code r) && (status_code r <? 600) then
    Raised (Exn HTTPError (pretty (status_code r) +:+ " Server Error: "
                           +:+ reason r +:+ " for url: " +:+ response_url r))
  else Returned ().

(** The two dict literals [serper_search] returns (lines 86-91, 94-98). *)
Record search_results := {
  sr_query : json;
  sr_num_results : option nat;
  sr_results : json;
  sr_search_metadata : option json;
  sr_error : option string;
}.

(** The dict of the [except] branch of [serper_search]. *)
Definition search_failure (query : json) (e : exn) : search_results :=
  {| sr_query := query;
     sr_num_results := None;
     sr_results := JArr [];
     sr_search_metadata := None;
     sr_error := Some (exn_str e) |}.

Definition serper_search (self : orchestrator) (w : world) (query : json)
    : io search_results :=
  try_except
    (response ← perform (Search query (num_results self))
                        (requests_post w query (num_results self));
     lift (raise_for_status response);;
     results ← lift (response_json response);
     organic_results ← lift (py_get results "organic" (JArr []));
     n ← lift (py_len organic_results);
     metadata ← lift (py_get results "searchParameters" (JObj ∅));
     ret {| sr_query := query;
            sr_num_results := Some n;
            sr_results := organic_results;
            sr_search_metadata := Some metadata;
            sr_error := None |})
    (λ e, ret (search_failure query e)).

(** [_fetch_url_content]: any exception of the generation call, and an empty
    answer, give [None]. *)
Definition _fetch_url_content (w : world) (url : json) : io (option string) :=
  try_except
    (content ← perform (Fetch url) (generate_content w url);
     ret (if String.eqb content "" then None else Some content))
    (λ _, ret None).

(** The dict literal [article_data] (lines 327-335).  [has_content] is the
    truth value of [content]: neither [None] nor the empty string. *)
Definition article_data (idx : nat) (title url snippet : json)
    (content : option string) : Article :=
  let text := default "" content in
  let has_content := negb (String.eqb text "") in
  {| position := idx;
     title := title;
     url := url;
     snippet := snippet;
     content_preview :=
       if has_content then JStr (str_slice_to 500 text +:+ "...") else snippet;
     content_length := if has_content then String.length text else 0%nat;
     scraped := bool_decide (is_Some content) |}.

(** The loop of lines 316-338 over [enumerate(results_to_scrape, 1)], from
    index [idx] on, with the articles appended so far. *)
Fixpoint scrape (w : world) (idx : nat) (results_to_scrape : list json)
    (articles : list Article) : io (list Article) :=
  match results_to_scrape with
  | [] => ret articles
  | result :: rest =>
      url ← lift (py_get result "link" (JStr ""));
      title ← lift (py_get result "title" (JStr "No title"));
      snippet ← lift (py_get result "snippet" (JStr ""));
      if negb (truthy url) then scrape w (S idx) rest articles
      else
        content ← _fetch_url_content w url;
        let articles := articles ++ [article_data idx title url snippet content] in
        (* the progress message evaluates title[:50] *)
        lift (py_slice_to title 50);;
        scrape w (S idx) rest articles
  end.

Definition _run_research_subagent (self : orchestrator) (w : world)
    (query : json) (query_type : string) : io BranchReport :=
  search_results ← serper_search self w query;
  if bool_decide (is_Some (sr_error search_results))
     || negb (truthy (sr_results search_results))
  then
    ret {| query_type := query_type;
           query := Some query;
           num_articles := None;
           articles := [];
           error := Some (default "No results found" (sr_error search_results));
           search_metadata := None |}
  else
    results_to_scrape ←
      lift (py_slice_items (sr_results search_results) (num_results self));
    articles ← scrape w 1 results_to_scrape [];
    ret {| query_type := query_type;
           query := Some query;
           num_articles := Some (length articles);
           articles := articles;
           error := None;
           search_metadata :=
             Some (default (JObj ∅) (sr_search_metadata search_results)) |}.

(** Lines 207-211: strip the answer and take the inside of a leading code
    fence. *)
Definition clean_response (response_text : string) : outcome string :=
  let response_text := py_strip response_text in
  if py_startswith "```json" response_text then
    after ←! py_index (py_split "```json" response_text) 1;
    inner ←! py_index (py_split "```" after) 0;
    Returned (py_strip inner)
  else if py_startswith "```" response_text then
    after ←! py_index (py_split "```" response_text) 1;
    inner ←! py_index (py_split "```" after) 0;
    Returned (py_strip inner)
  else Returned response_text.

(** The dict literal of the [except] branch (lines 223-233). *)
Definition fallback_queries (user_query : string) : json :=
  JObj {[ "original" := JStr user_query;
          "primary" := JStr user_query;
          "orthogonal_1" := JStr (user_query +:+ " latest research");
          "orthogonal_2" := JStr (user_query +:+ " expert analysis");
          "reasoning" :=
            JObj {[ "primary" := JStr "Using original query";
                    "orthogonal_1" := JStr "Latest research angle";
                    "orthogonal_2" := JStr "Expert analysis angle" ]} ]}.

(** The body of the [try] (lines 206-219): the three progress messages read
    [refined['primary']], [refined['orthogonal_1']], [refined['orthogonal_2']]. *)
Definition parse_refined (w : world) (response_text : string) : outcome json :=
  response_text ←! clean_response response_text;
  refined ←! json_loads w response_text;
  py_item refined "primary";;!
  py_item refined "orthogonal_1";;!
  py_item refined "orthogonal_2";;!
  Returned refined.

(** The generation call is outside the [try]; the handler is
    [except json.JSONDecodeError]. *)
Definition _refine_queries (w : world) (user_query : string) : outcome json :=
  response_text ←! generate_queries w user_query;
  match parse_refined w response_text with
  | Returned refined => Returned refined
  | Raised e =>
      if is_JSONDecodeError e then Returned (fallback_queries user_query)
      else Raised e
  end.

Definition query_types : list string := ["primary"; "orthogonal_1"; "orthogonal_2"].

(** Lines 262-269: one task per query type whose query is truthy. *)
Definition create_tasks (refined_queries : json) : outcome (list (json * string)) :=
  foldl (λ acc query_type,
           tasks ←! acc;
           query ←! py_get refined_queries query_type (JStr "");
           Returned (if truthy query then tasks ++ [(query, query_type)] else tasks))
        (Returned []) query_types.

(** [asyncio.gather] with [return_exceptions=True].  The children complete in
    the order [completion]; a child the order leaves out completes after
    those it names (every task of the model terminates).  The outcome of
    child [i] goes to slot [i]; the join hands out the slots in order. *)
Definition complete_child {A} (aws : list A) (slots : list (option A)) (i : nat)
    : list (option A) :=
  match aws !! i with
  | Some a => <[i := Some a]> slots
  | None => slots
  end.

Definition gather {A} (completion : list nat) (aws : list A) : list A :=
  let n := length aws in
  omap id (foldl (complete_child aws) (replicate n None) (completion ++ seq 0 n)).

(** The dict literal of lines 280-284. *)
Definition fault_report (query_type : string) (e : exn) : BranchReport :=
  {| query_type := query_type;
     query := None;
     num_articles := None;
     articles := [];
     error := Some (exn_str e);
     search_metadata := None |}.

(** Lines 276-286, from index [i] on. *)
Fixpoint process_results (i : nat) (results : list (outcome BranchReport))
    : outcome (list BranchReport) :=
  match results with
  | [] => Returned []
  | result :: rest =>
      processed ←! match result with
                   | Raised e =>
                       query_type ←! py_index query_types i;
                       Returned (fault_report query_type e)
                   | Returned report => Returned report
                   end;
      others ←! process_results (S i) rest;
      Returned (processed :: others)
  end.

(** What the join receives from a task: the value its branch returns or the
    exception it raises. *)
Definition run_task (self : orchestrator) (w : world) (task : json * string)
    : outcome BranchReport :=
  outcome_of (_run_research_subagent self w task.1 task.2).

(** The value [_execute_parallel_research] returns; the calls its tasks make
    are [fan_out_calls] below. *)
Definition _execute_parallel_research (self : orchestrator) (w : world)
    (refined_queries : json) : outcome (list BranchReport) :=
  tasks ←! create_tasks refined_queries;
  let results := gather (completion w) (run_task self w <$> tasks) in
  process_results 0 results.

(** The calls of tasks that run concurrently, as [asyncio.gather] runs the
    branches: the calls of one task keep their order, those of different
    tasks are interleaved by the scheduler.  At each turn of [schedule] the
    task named makes its next call (a turn of a task with no call left is
    void); when the turns are used up, the tasks make the calls they have
    left one task after the other. *)
Fixpoint interleave (schedule : list nat) (traces : list (list call)) : list call :=
  match schedule with
  | [] => concat traces
  | i :: turns =>
      match traces !! i with
      | Some (c :: rest) => c :: interleave turns (<[i := rest]> traces)
      | _ => interleave turns traces
      end
  end.

(** The calls the tasks of [_execute_parallel_research] make.  Nothing runs
    before the join: when building the tasks raises, no call is made. *)
Definition fan_out_calls (self : orchestrator) (w : world)
    (refined_queries : json) : list call :=
  match create_tasks refined_queries with
  | Returned tasks =>
      interleave (schedule w)
        ((λ task, calls_of (_run_research_subagent self w task.1 task.2)) <$> tasks)
  | Raised _ => []
  end.

(** [_execute_parallel_research] as its caller runs it: the calls of the
    branches and the reports. *)
Definition parallel_research (self : orchestrator) (w : world)
    (refined_queries : json) : io (list BranchReport) :=
  (fan_out_calls self w refined_queries,
   _execute_parallel_research self w refined_queries).

Fixpoint mapM_outcome {A B} (f : A → outcome B) (l : list A) : outcome (list B) :=
  match l with
  | [] => Returned []
  | x :: rest =>
      y ←! f x;
      ys ←! mapM_outcome f rest;
      Returned (y :: ys)
  end.

(** Lines 400-405. *)
Definition summarize_article (article : Article) : outcome article_summary :=
  preview ←! py_slice_to (content_preview article) 300;
  Returned {| sum_title := title article;
              sum_url := url article;
              sum_snippet := snippet article;
              sum_content_preview := preview |}.

(** Lines 395-408. *)
Definition summarize (result : BranchReport) : outcome branch_summary :=
  summaries ←! mapM_outcome summarize_article (list_slice_to 5 (articles result));
  Returned {| sum_query_type := query_type result;
              sum_query := query result;
              sum_num_articles := default 0%nat (num_articles result);
              sum_articles := summaries |}.

(** Lines 388-409: the aggregate the report prompt is built from. *)
Definition build_summary (original_query : string) (refined_queries : json)
    (research_results : list BranchReport) : outcome research_summary :=
  summaries ←! mapM_outcome summarize research_results;
  Returned {| original_query := original_query;
              refined_queries := refined_queries;
              results_summary := summaries |}.

Definition _generate_report (w : world) (original_query : string)
    (refined_queries : json) (research_results : list BranchReport)
    : outcome string :=
  research_summary ←! build_summary original_query refined_queries research_results;
  generate_report w research_summary.

Definition create_session_directory (w : world) : io string :=
  let session_path := "research_sessions/" +:+ now w in
  perform (Mkdir session_path) (Returned ());;
  ret session_path.

(** [save_json]; [session_dir] is the field [self.session_dir] at the call.
    Yields the field after the call and the path written. *)
Definition save_json (w : world) (session_dir : option string)
    (filename : string) (data : artifact) : io (string * string) :=
  dir ← match session_dir with
        | Some dir => ret dir
        | None => create_session_directory w
        end;
  let filepath := dir +:+ "/" +:+ filename in
  perform (WriteFile filepath data) (Returned ());;
  ret (dir, filepath).

(** Lines 132-134. *)
Fixpoint save_results (w : world) (session_dir : string)
    (research_results : list BranchReport) : io unit :=
  match research_results with
  | [] => ret ()
  | result :: rest =>
      save_json w (Some session_dir)
                ("research_results_" +:+ query_type result +:+ ".json")
                (ResultsFile result);;
      save_results w session_dir rest
  end.

(** The dict [research_with_orchestrator] returns (lines 150-155). *)
Record ResearchResult := {
  session_dir : string;
  queries : json;
  results : list BranchReport;
  report : string;
}.

Definition research_with_orchestrator (self : orchestrator) (w : world)
    (user_query : string) : io ResearchResult :=
  session_dir ← create_session_directory w;
  refined_queries ← lift (_refine_queries w user_query);
  save_json w (Some session_dir) "queries.json" (QueriesFile refined_queries);;
  research_results ← parallel_research self w refined_queries;
  save_results w session_dir research_results;;
  final_report ←
    lift (_generate_report w user_query refined_queries research_results);
  perform (WriteFile (session_dir +:+ "/final_report.md") (MarkdownFile final_report))
          (Returned ());;
  ret {| session_dir := session_dir;
         queries := refined_queries;
         results := research_results;
         report := final_report |}.

(** ** Notions used in the statements *)

(** The search found nothing to scrape: the test of line 302. *)
Definition search_failed (sr : search_results) : bool :=
  bool_decide (is_Some (sr_error sr)) || negb (truthy (sr_results sr)).

(** The report of lines 303-308. *)
Definition failure_report (query : json) (query_type : string)
    (sr : search_results) : BranchReport :=
  {| query_type := query_type;
     query := Some query;
     num_articles := None;
     articles := [];
     error := Some (default "No results found" (sr_error sr));
     search_metadata := None |}.

(** The report of lines 342-348. *)
Definition success_report (query : json) (query_type : string)
    (sr : search_results) (articles : list Article) : BranchReport :=
  {| query_type := query_type;
     query := Some query;
     num_articles := Some (length articles);
     articles := articles;
     error := None;
     search_metadata := Some (default (JObj ∅) (sr_search_metadata sr)) |}.

(** What [_fetch_url_content] yields for a URL. *)
Definition fetched (w : world) (url : json) : option string :=
  match outcome_of (_fetch_url_content w url) with
  | Returned content => content
  | Raised _ => None
  end.

(** [hit.get("link", "")] is truthy. *)
Definition has_link (hit : json) : bool :=
  match py_get hit "link" (JStr "") with
  | Returned url => truthy url
  | Raised _ => false
  end.

(** A value the progress message can slice. *)
Definition sliceable (v : json) : bool :=
  match v with
  | JStr _ | JArr _ => true
  | _ => false
  end.

(** A hit the loop gets through: a dict whose title, when the hit has a link,
    is a string or a list. *)
Definition hit_ok (hit : json) : bool :=
  match hit with
  | JObj m =>
      negb (truthy (default (JStr "") (m !! "link")))
      || sliceable (default (JStr "No title") (m !! "title"))
  | _ => false
  end.

(** The article the loop emits for the hit of rank [idx], if any. *)
Definition hit_article (w : world) (idx : nat) (hit : json) : option Article :=
  match hit with
  | JObj m =>
      let url := default (JStr "") (m !! "link") in
      if truthy url
      then Some (article_data idx (default (JStr "No title") (m !! "title")) url
                   (default (JStr "") (m !! "snippet")) (fetched w url))
      else None
  | _ => None
  end.

Fixpoint emitted (w : world) (idx : nat) (hits : list json) : list Article :=
  match hits with
  | [] => []
  | hit :: rest =>
      match hit_article w idx hit with
      | Some article => article :: emitted w (S idx) rest
      | None => emitted w (S idx) rest
      end
  end.

(** The hits the loop of a branch runs over (lines 300 and 312). *)
Definition results_to_scrape (self : orchestrator) (w : world) (query : json)
    : outcome (list json) :=
  search_results ←! outcome_of (serper_search self w query);
  py_slice_items (sr_results search_results) (num_results self).


(** [phrase in s]. *)
Definition mentions (phrase s : string) : bool :=
  match String.index 0 phrase s with
  | Some _ => true
  | None => false
  end.

(** The four query strings of a query set are present and non-empty. *)
Definition query_strings_nonempty (queries : json) : Prop :=
  ∀ key, key ∈ ["original"; "primary"; "orthogonal_1"; "orthogonal_2"] →
    ∃ s, py_item queries key = Returned (JStr s) ∧ s ≠ "".

(** [m.get(key, "")], as the fan-out reads a query and the loop a link. *)
Definition get_or_empty (m : gmap string json) (key : string) : json :=
  default (JStr "") (m !! key).

(** The query types the fan-out launches a branch for. *)
Definition launched (m : gmap string json) : list string :=
  filter (λ query_type, truthy (get_or_empty m query_type) = true) query_types.

(** Slot [i] of the join holds the outcome of child [i]. *)
Definition slot_filled {A} (aws : list A) (slots : list (option A)) (i : nat)
    : Prop :=
  ∃ a, aws !! i = Some a ∧ slots !! i = Some (Some a).

(** World [w] with another order of completion. *)
Definition with_completion (w : world) (order : list nat) : world :=
  {| json_loads := json_loads w;
     generate_queries := generate_queries w;
     requests_post := requests_post w;
     generate_content := generate_content w;
     generate_report := generate_report w;
     now := now w;
     completion := order;
     schedule := schedule w |}.

(** The report the fan-out holds for a branch outcome, tagged [tag] on a
    fault. *)
Definition report_of (tag : string) (result : outcome BranchReport) : BranchReport :=
  match result with
  | Returned report => report
  | Raised e => fault_report tag e
  end.

(** The branch of a query type failed: it raised, or its search failed or
    found nothing. *)
Definition branch_failed (self : orchestrator) (w : world) (q : json)
    (tag : string) : Prop :=
  (∃ e, outcome_of (_run_research_subagent self w q tag) = Raised e)
  ∨ (∃ sr, outcome_of (serper_search self w q) = Returned sr
           ∧ search_failed sr = true).

(** ** Concrete worlds

    Worlds to run the model in.  JSON texts are written with apostrophes
    where JSON has double quotes; [quoted] puts the double quotes back. *)

Fixpoint quoted (s : string) : string :=
  match s with
  | "" => ""
  | String c r => String (if Ascii.eqb c "'" then "034"%char else c) (quoted r)
  end.

Definition demo_self : orchestrator :=
  {| serper_api_key := "key"; num_results := 3 |}.

(** Four hits; the second has no link, the fourth lies beyond the limit. *)
Definition demo_hits : string :=
  quoted "{'organic': [{'title': 'A', 'link': 'http://a', 'snippet': 'sa'}, {'title': 'B', 'snippet': 'sb'}, {'title': 'C', 'link': 'http://c', 'snippet': 'sc'}, {'title': 'D', 'link': 'http://d'}], 'searchParameters': {'q': 'x'}}".

Definition demo_response (status : Z) (reason body : string) : response :=
  {| status_code := status;
     reason := reason;
     response_url := "https://google.serper.dev/search";
     response_json := Json.loads body |}.

(** The provider: a timeout for the query [o1], a refusal for [denied], a hit
    that is no dict for [odd], no hit for [none], four hits otherwise. *)
Definition demo_post (q : json) (num : Z) : outcome response :=
  match q with
  | JStr "o1" => Raised (Exn (OtherError "ConnectTimeout") "connection timed out")
  | JStr "denied" => Returned (demo_response 403 "Forbidden" "{}")
  | JStr "odd" => Returned (demo_response 200 "OK" (quoted "{'organic': [7]}"))
  | JStr "none" => Returned (demo_response 200 "OK" (quoted "{'organic': []}"))
  | _ => Returned (demo_response 200 "OK" demo_hits)
  end.

(** The content fetcher: a short page for the first link, nothing else. *)
Definition demo_content (u : json) : outcome string :=
  match u with
  | JStr "http://a" => Returned "abc"
  | _ => Raised (Exn (OtherError "CLIConnectionError") "fetch failed")
  end.

Definition demo_world_with (queries_answer : string)
    (report_answer : outcome string) : world :=
  {| json_loads := Json.loads;
     generate_queries := λ _, Returned queries_answer;
     requests_post := demo_post;
     generate_content := demo_content;
     generate_report := λ _, report_answer;
     now := "2025-01-01_12-00-00";
     completion := [2; 0]%nat;
     schedule := [0; 1; 2; 2; 0]%nat |}.

(** The generator answers with fenced JSON; the second branch times out. *)
Definition demo_world : world :=
  demo_world_with
    (quoted "```json {'original': 'q', 'primary': 'p', 'orthogonal_1': 'o1', 'orthogonal_2': 'o2'} ```")
    (Returned "# Research Report").

(** The generator answers in prose. *)
Definition prose_world : world :=
  demo_world_with "Here are three queries you could try."
    (Returned "# Research Report").

(** The generator answers with an empty primary query. *)
Definition empty_primary_world : world :=
  demo_world_with
    (quoted "{'original': 'q', 'primary': '', 'orthogonal_1': 'a', 'orthogonal_2': 'b'}")
    (Returned "# Research Report").

(** The same, and the provider answers the first launched branch with a hit
    that is no dict. *)
Definition shifted_tag_world : world :=
  demo_world_with
    (quoted "{'original': 'q', 'primary': '', 'orthogonal_1': 'odd', 'orthogonal_2': 'b'}")
    (Returned "# Research Report").

(** The generator leaves the primary query out. *)
Definition missing_key_world : world :=
  demo_world_with (quoted "{'orthogonal_1': 'a', 'orthogonal_2': 'b'}")
    (Returned "# Research Report").

(** The report generation fails. *)
Definition failing_report_world : world :=
  demo_world_with
    (quoted "{'original': 'q', 'primary': 'p', 'orthogonal_1': 'o1', 'orthogonal_2': 'o2'}")
    (Raised (Exn (OtherError "ProcessError") "generation failed")).

(** The provider answers every search with status 304 and the four hits. *)
Definition not_modified_world : world :=
  {| json_loads := Json.loads;
     generate_queries := generate_queries demo_world;
     requests_post := λ _ _, Returned (demo_response 304 "Not Modified" demo_hits);
     generate_content := demo_content;
     generate_report := λ _, Returned "# Research Report";
     now := "2025-01-01_12-00-00";
     completion := [];
     schedule := [] |}.

(** The query sets the generator's answers decode to. *)
Definition demo_queries : gmap string json :=
  {[ "original" := JStr "q"; "primary" := JStr "p";
     "orthogonal_1" := JStr "o1"; "orthogonal_2" := JStr "o2" ]}.

Definition empty_primary_queries : gmap string json :=
  {[ "original" := JStr "q"; "primary" := JStr "";
     "orthogonal_1" := JStr "a"; "orthogonal_2" := JStr "b" ]}.

Definition shifted_tag_queries : gmap string json :=
  {[ "original" := JStr "q"; "primary" := JStr "";
     "orthogonal_1" := JStr "odd"; "orthogonal_2" := JStr "b" ]}.

Definition demo_article_a : Article :=
  {| position := 1; title := JStr "A"; url := JStr "http://a";
     snippet := JStr "sa"; content_preview := JStr "abc...";
     content_length := 3; scraped := true |}.

Definition demo_article_c : Article :=
  {| position := 3; title := JStr "C"; url := JStr "http://c";
     snippet := JStr "sc"; content_preview := JStr "sc";
     content_length := 0; scraped := false |}.

(** What a branch of [demo_world] reports when its search succeeds. *)
Definition demo_report (q : json) (tag : string) : BranchReport :=
  {| query_type := tag;
     query := Some q;
     num_articles := Some 2%nat;
     articles := [demo_article_a; demo_article_c];
     error := None;
     search_metadata := Some (JObj {[ "q" := JStr "x" ]}) |}.

(** What the second branch of [demo_world] reports. *)
Definition demo_timeout_report : BranchReport :=
  {| query_type := "orthogonal_1";
     query := Some (JStr "o1");
     num_articles := None;
     articles := [];
     error := Some "connection timed out";
     search_metadata := None |}.

Definition demo_reports : list BranchReport :=
  [demo_report (JStr "p") "primary"; demo_timeout_report;
   demo_report (JStr "o2") "orthogonal_2"].





(** ** Notions used for the callers and for the further properties *)

(** The article count the callers announce,
    [sum([r.get('num_articles', 0) for r in result['results']])]
    (app.py line 273, test_setup.py line 101). *)
Definition total_articles (results : list BranchReport) : nat :=
  sum_list ((λ result, default 0%nat (num_articles result)) <$> results).

(** Character [c] occurs in [s]. *)
Fixpoint has_char (c : ascii) (s : string) : bool :=
  match s with
  | "" => false
  | String c' r => Ascii.eqb c c' || has_char c r
  end.

(** The path a call writes to. *)
Definition written_path (c : call) : option string :=
  match c with
  | WriteFile path _ => Some path
  | _ => None
  end.

(** The write of one branch report (lines 133-134). *)
Definition results_file (session_dir : string) (result : BranchReport) : call :=
  WriteFile (session_dir +:+ "/" +:+ "research_results_" +:+ query_type result +:+ ".json")
            (ResultsFile result).

Definition is_fetch (c : call) : bool :=
  match c with
  | Fetch _ => true
  | _ => false
  end.

(** A call to the search provider or to the content fetcher. *)
Definition is_request (c : call) : bool :=
  match c with
  | Search _ _ | Fetch _ => true
  | _ => false
  end.

Definition is_search (c : call) : bool :=
  match c with
  | Search _ _ => true
  | _ => false
  end.

(** The search request of the branch of a query type. *)
Definition branch_search (self : orchestrator) (m : gmap string json)
    (tag : string) : call :=
  Search (get_or_empty m tag) (num_results self).

(** What the answer of [missing_key_world] decodes to. *)
Definition missing_key_queries : gmap string json :=
  {[ "orthogonal_1" := JStr "a"; "orthogonal_2" := JStr "b" ]}.

(** A world whose provider answers every search with status 200 and the
    given body. *)
Definition answer_world (body : string) : world :=
  {| json_loads := Json.loads;
     generate_queries := generate_queries demo_world;
     requests_post := λ _ _, Returned (demo_response 200 "OK" body);
     generate_content := demo_content;
     generate_report := λ _, Returned "# Research Report";
     now := "2025-01-01_12-00-00";
     completion := [];
     schedule := [] |}.

(** The generator answers with three empty queries. *)
Definition no_query_world : world :=
  demo_world_with
    (quoted "{'primary': '', 'orthogonal_1': '', 'orthogonal_2': ''}")
    (Returned "# Research Report").

Definition no_queries : gmap string json :=
  {[ "primary" := JStr ""; "orthogonal_1" := JStr ""; "orthogonal_2" := JStr "" ]}.

(** The generator answers with an empty primary query, and the provider
    answers the last branch with a hit that is no dict. *)
Definition colliding_world : world :=
  demo_world_with
    (quoted "{'primary': '', 'orthogonal_1': 'b', 'orthogonal_2': 'odd'}")
    (Returned "# Research Report").

(** * Properties *)

(** ** The monads *)

Section monad_laws.
Context {A B : Type}.

Lemma outcome_of_bind (m : io A) (f : A → io B) :
  outcome_of (bind m f) =
    match outcome_of m with
    | Returned a => outcome_of (f a)
    | Raised e => Raised e
    end.
Proof. destruct m as [calls [a|e]]; simpl; [|done]. by destruct (f a). Qed.

Lemma calls_of_bind (m : io A) (f : A → io B) :
  calls_of (bind m f) =
    match outcome_of m with
    | Returned a => calls_of m ++ calls_of (f a)
    | Raised e => calls_of m
    end.
Proof. destruct m as [calls [a|e]]; simpl; [|done]. by destruct (f a). Qed.

Lemma bind_lift_returned (a : A) (f : A → io B) :
  bind (lift (Returned a)) f = f a.
Proof. unfold lift. simpl. by destruct (f a). Qed.

Lemma bind_lift_raised e (f : A → io B) :
  bind (lift (Raised e)) f = ([], Raised e).
Proof. done. Qed.

Lemma bind_returned calls (a : A) (f : A → io B) :
  bind (calls, Returned a) f = (calls ++ calls_of (f a), outcome_of (f a)).
Proof. simpl. by destruct (f a). Qed.
End monad_laws.

Lemma obind_returned_inv {A B} (m : outcome A) (f : A → outcome B) (b : B) :
  obind m f = Returned b → ∃ a, m = Returned a ∧ f a = Returned b.
Proof. destruct m as [a|e]; simpl; [eauto|done]. Qed.

(** ** Slices and strings *)

Lemma slice_stop_nonneg (n : Z) (len : nat) :
  0 ≤ n → slice_stop n len = Z.to_nat n.
Proof. intros Hn. unfold slice_stop. by rewrite (proj2 (Z.ltb_ge n 0)). Qed.

Lemma list_slice_to_nonneg {A} (n : Z) (l : list A) :
  0 ≤ n → list_slice_to n l = take (Z.to_nat n) l.
Proof. intros Hn. unfold list_slice_to. by rewrite slice_stop_nonneg. Qed.

Lemma list_slice_to_length {A} (n : Z) (l : list A) :
  0 ≤ n → Z.of_nat (length (list_slice_to n l)) ≤ n.
Proof. intros Hn. rewrite list_slice_to_nonneg, length_take by done. lia. Qed.

Lemma list_slice_to_lookup {A} (n : Z) (l : list A) (i : nat) (x : A) :
  list_slice_to n l !! i = Some x → l !! i = Some x.
Proof. unfold list_slice_to. intros H. by apply lookup_take_Some in H as [? _]. Qed.

Lemma str_take_length (n : nat) (s : string) :
  (String.length (str_take n s) ≤ n)%nat.
Proof.
  revert s. induction n as [|n IH]; intros [|c s]; simpl; try lia.
  specialize (IH s). lia.
Qed.


Lemma str_slice_to_nonneg (n : Z) (s : string) :
  0 ≤ n → str_slice_to n s = str_take (Z.to_nat n) s.
Proof. intros Hn. unfold str_slice_to. by rewrite slice_stop_nonneg. Qed.

Lemma str_chars_length (s : string) : length (str_chars s) = String.length s.
Proof. induction s; simpl; congruence. Qed.


Lemma split_go_nonempty (sep : string) (skip : nat) (cur s : string) :
  split_go sep skip cur s ≠ [].
Proof.
  revert skip cur.
  induction s as [|c s IH]; intros skip cur; cbn [split_go]; [done|].
  destruct skip as [|k]; [|apply IH].
  destruct (String.prefix sep (String c s)); [done|apply IH].
Qed.

(** Splitting a text at a separator it starts with yields an empty first
    piece and at least one more. *)
Lemma py_split_startswith (sep s : string) :
  sep ≠ "" → py_startswith sep s = true →
  ∃ second rest, py_split sep s = "" :: second :: rest.
Proof.
  intros Hsep Hpre. unfold py_split, py_startswith in *.
  destruct s as [|c s].
  - destruct sep; [done|discriminate].
  - cbn [split_go]. rewrite Hpre.
    destruct (split_go sep (String.length sep - 1) "" s) as [|second rest] eqn:E.
    + by apply split_go_nonempty in E.
    + eauto.
Qed.

Lemma py_split_first (sep s : string) :
  ∃ first rest, py_split sep s = first :: rest.
Proof.
  destruct (py_split sep s) as [|first rest] eqn:E; [|eauto].
  by apply split_go_nonempty in E.
Qed.

(** ** The join *)

Section gather.
Context {A : Type}.
Implicit Types (aws : list A) (slots : list (option A)).

Lemma complete_child_length aws slots i :
  length (complete_child aws slots i) = length slots.
Proof. unfold complete_child. destruct (aws !! i); [apply length_insert|done]. Qed.

Lemma complete_child_keeps aws slots i j :
  slot_filled aws slots j → slot_filled aws (complete_child aws slots i) j.
Proof.
  intros (a & Ha & Hslot). exists a. split; [done|].
  unfold complete_child. destruct (aws !! i) as [b|] eqn:Hb; [|done].
  destruct (decide (i = j)) as [->|Hne].
  - rewrite list_lookup_insert_eq by (by eapply lookup_lt_Some). congruence.
  - by rewrite list_lookup_insert_ne.
Qed.

Lemma complete_child_fills aws slots i :
  length slots = length aws → (i < length aws)%nat →
  slot_filled aws (complete_child aws slots i) i.
Proof.
  intros Hlen Hi. destruct (lookup_lt_is_Some_2 aws i Hi) as [a Ha].
  exists a. split; [done|]. unfold complete_child. rewrite Ha.
  apply list_lookup_insert_eq. lia.
Qed.

Lemma complete_all aws order slots :
  length slots = length aws →
  let slots' := foldl (complete_child aws) slots order in
  length slots' = length aws
  ∧ ∀ i, (slot_filled aws slots i ∨ (i ∈ order ∧ (i < length aws)%nat)) →
         slot_filled aws slots' i.
Proof.
  revert slots. induction order as [|j order IH]; intros slots Hlen; simpl.
  - split; [done|]. intros i [?|[Hi _]]; [done|]. by apply elem_of_nil in Hi.
  - destruct (IH (complete_child aws slots j)) as [Hlen' Hfill].
    { by rewrite complete_child_length. }
    split; [done|]. intros i [Hi|[Hi Hlt]]; apply Hfill.
    + left. by apply complete_child_keeps.
    + apply elem_of_cons in Hi as [->|Hi]; [left|right; done].
      by apply complete_child_fills.
Qed.

(** The join hands out the children's outcomes in the order of the
    children, whatever the order of completion. *)
Lemma gather_order (completion : list nat) aws : gather completion aws = aws.
Proof.
  unfold gather.
  destruct (complete_all aws (completion ++ seq 0 (length aws))
              (replicate (length aws) None)) as [Hlen Hfill].
  { apply length_replicate. }
  set (slots := foldl _ _ _) in *.
  assert (slots = Some <$> aws) as ->.
  { apply list_eq. intros i. rewrite list_lookup_fmap.
    destruct (decide (i < length aws)%nat) as [Hi|Hi].
    - destruct (Hfill i) as (a & Ha & Hslot).
      { right. split; [|done]. apply elem_of_app. right.
        apply elem_of_seq. lia. }
      by rewrite Ha, Hslot.
    - rewrite !lookup_ge_None_2; [done|lia|lia]. }
  clear. induction aws as [|a aws IH]; simpl; [done|]. by f_equal.
Qed.
End gather.

(** ** The search client and the content fetcher *)

Lemma raise_for_status_error (r : response) :
  400 ≤ status_code r < 600 → ∃ e, raise_for_status r = Raised e.
Proof.
  intros Hs. unfold raise_for_status.
  destruct (decide (status_code r < 500)) as [Hlt|Hge].
  - rewrite (proj2 (Z.leb_le 400 _)), (proj2 (Z.ltb_lt _ 500)) by lia. eauto.
  - rewrite (proj2 (Z.ltb_ge _ 500)) by lia. rewrite andb_false_r.
    rewrite (proj2 (Z.leb_le 500 _)), (proj2 (Z.ltb_lt _ 600)) by lia. eauto.
Qed.

(** [serper_search] makes one request and always returns a dict. *)
Lemma serper_search_returns self w query :
  ∃ sr, serper_search self w query = ([Search query (num_results self)], Returned sr)
        ∧ sr_query sr = query.
Proof.
  unfold serper_search, perform.
  destruct (requests_post w query (num_results self)) as [resp|e]; simpl;
    [|by eexists].
  destruct (raise_for_status resp); simpl; [|by eexists].
  destruct (response_json resp) as [results|e]; simpl; [|by eexists].
  destruct (py_get results "organic" (JArr [])) as [organic|e]; simpl;
    [|by eexists].
  destruct (py_len organic); simpl; [|by eexists].
  destruct (py_get results "searchParameters" (JObj ∅)); simpl; by eexists.
Qed.

(** A failing request, or a response that [raise_for_status] rejects, gives
    the failure dict with the error description. *)
Lemma serper_search_captures self w query e :
  (resp ←! requests_post w query (num_results self); raise_for_status resp)
    = Raised e →
  outcome_of (serper_search self w query) = Returned (search_failure query e).
Proof.
  unfold serper_search, perform.
  destruct (requests_post w query (num_results self)) as [resp|e']; simpl.
  - destruct (raise_for_status resp); simpl; [done|]. by intros [= ->].
  - by intros [= ->].
Qed.

Lemma fetch_url_content_eq w url :
  _fetch_url_content w url = ([Fetch url], Returned (fetched w url)).
Proof.
  unfold fetched, _fetch_url_content, perform.
  by destruct (generate_content w url).
Qed.

(** The content fetcher hands out [None] or a non-empty text. *)
Lemma fetched_nonempty w url content :
  fetched w url = Some content → content ≠ "".
Proof.
  unfold fetched, _fetch_url_content, perform.
  destruct (generate_content w url) as [c|e]; simpl; [|done].
  destruct (String.eqb c "") eqn:E; [done|]. intros [= <-].
  by apply String.eqb_neq.
Qed.

(** ** The scraping loop *)

Lemma article_data_fetched idx title url snippet content :
  content ≠ "" →
  article_data idx title url snippet (Some content) =
    {| position := idx; title := title; url := url; snippet := snippet;
       content_preview := JStr (str_take 500 content +:+ "...");
       content_length := String.length content;
       scraped := true |}.
Proof.
  intros Hne. unfold article_data. simpl.
  rewrite (proj2 (String.eqb_neq content "")) by done. simpl.
  by rewrite str_slice_to_nonneg.
Qed.

Lemma hit_article_Some w idx hit article :
  hit_article w idx hit = Some article →
  ∃ m, hit = JObj m
       ∧ truthy (get_or_empty m "link") = true
       ∧ article = article_data idx (default (JStr "No title") (m !! "title"))
                     (get_or_empty m "link") (get_or_empty m "snippet")
                     (fetched w (get_or_empty m "link")).
Proof.
  destruct hit as [| | | | | |m]; simpl; try done. unfold get_or_empty.
  destruct (truthy (default (JStr "") (m !! "link"))) eqn:E; [|done].
  intros [= <-]. eauto.
Qed.

Lemma hit_article_has_link w idx hit :
  is_Some (hit_article w idx hit) ↔ has_link hit = true.
Proof.
  destruct hit as [| | | | | |m]; simpl; try by (split; [intros [? [=]]|]).
  unfold has_link. simpl.
  destruct (truthy (default (JStr "") (m !! "link"))); split; try done; eauto.
Qed.

Lemma emitted_lookup w hits : ∀ idx article,
  article ∈ emitted w idx hits →
  ∃ i hit, hits !! i = Some hit ∧ hit_article w (idx + i) hit = Some article.
Proof.
  induction hits as [|hit rest IH]; intros idx article Hin; simpl in Hin.
  { by apply elem_of_nil in Hin. }
  assert (article ∈ emitted w (S idx) rest →
          ∃ i hit', (hit :: rest) !! i = Some hit'
                    ∧ hit_article w (idx + i) hit' = Some article) as Hrest.
  { intros H. destruct (IH _ _ H) as (i & hit' & Hi & Ha).
    exists (S i), hit'. split; [done|]. by replace (idx + S i)%nat with (S idx + i)%nat by lia. }
  destruct (hit_article w idx hit) as [a|] eqn:E; [|by apply Hrest].
  apply elem_of_cons in Hin as [->|Hin]; [|by apply Hrest].
  exists 0%nat, hit. split; [done|]. by rewrite Nat.add_0_r.
Qed.

Lemma hit_article_position w idx hit article :
  hit_article w idx hit = Some article → position article = idx.
Proof. intros H. apply hit_article_Some in H as (m & _ & _ & ->). done. Qed.

Lemma emitted_position_ge w hits idx article :
  article ∈ emitted w idx hits → (idx ≤ position article)%nat.
Proof.
  intros H. apply emitted_lookup in H as (i & hit & _ & Ha).
  apply hit_article_position in Ha. lia.
Qed.

(** Ranks grow along the emitted articles. *)
Lemma emitted_sorted w hits : ∀ idx,
  StronglySorted lt (position <$> emitted w idx hits).
Proof.
  induction hits as [|hit rest IH]; intros idx; simpl; [constructor|].
  destruct (hit_article w idx hit) as [a|] eqn:E; [|apply IH].
  simpl. constructor; [apply IH|].
  apply Forall_fmap, Forall_forall. intros b Hb. simpl.
  apply emitted_position_ge in Hb. apply hit_article_position in E. lia.
Qed.

Lemma emitted_length w hits : ∀ idx,
  length (emitted w idx hits) = length (filter (λ hit, has_link hit = true) hits).
Proof.
  induction hits as [|hit rest IH]; intros idx; simpl; [done|].
  rewrite filter_cons. pose proof (hit_article_has_link w idx hit) as Hl.
  destruct (hit_article w idx hit) as [a|].
  - rewrite decide_True by (apply Hl; eauto). simpl. by rewrite IH.
  - rewrite decide_False; [apply IH|]. intros H. by apply Hl in H as [? [=]].
Qed.

(** A hit without link leaves no article behind. *)
Lemma emitted_skips w hits idx i hit article :
  hits !! i = Some hit → has_link hit = false →
  article ∈ emitted w idx hits → position article ≠ (idx + i)%nat.
Proof.
  intros Hi Hno Hin Hpos.
  apply emitted_lookup in Hin as (j & hit' & Hj & Ha).
  pose proof (hit_article_position _ _ _ _ Ha) as Hp.
  assert (j = i) as -> by lia. assert (hit' = hit) as -> by congruence.
  assert (is_Some (hit_article w (idx + i) hit)) as Hs by eauto.
  apply hit_article_has_link in Hs. congruence.
Qed.

(** What the loop yields when it gets through, and the calls it makes. *)
Lemma scrape_returned w hits : ∀ idx acc arts,
  outcome_of (scrape w idx hits acc) = Returned arts →
  arts = acc ++ emitted w idx hits
  ∧ calls_of (scrape w idx hits acc) = Fetch ∘ url <$> emitted w idx hits
  ∧ forallb hit_ok hits = true.
Proof.
  induction hits as [|hit rest IH]; intros idx acc arts; cbn [scrape].
  { intros [= <-]. by rewrite app_nil_r. }
  destruct hit as [| | | | | |m]; try done.
  cbn [py_get]. rewrite !bind_lift_returned. cbn [emitted hit_article hit_ok forallb].
  destruct (truthy (default (JStr "") (m !! "link"))) eqn:Hurl; cbn [negb].
  2:{ intros H. by apply IH in H. }
  rewrite fetch_url_content_eq, bind_returned. cbn [calls_of outcome_of fst snd].
  set (title := default (JStr "No title") (m !! "title")).
  set (article := article_data _ _ _ _ _).
  destruct (py_slice_to title 50) as [sliced|e] eqn:Hslice.
  2:{ rewrite bind_lift_raised. done. }
  rewrite bind_lift_returned. intros H. apply IH in H as (-> & Hcalls & Hok).
  rewrite Hcalls. rewrite <- app_assoc. repeat split; try done.
  rewrite Hok. destruct title; done.
Qed.

(** The loop gets through well-formed hits. *)
Lemma scrape_total w hits : ∀ idx acc,
  forallb hit_ok hits = true →
  scrape w idx hits acc
    = (Fetch ∘ url <$> emitted w idx hits, Returned (acc ++ emitted w idx hits)).
Proof.
  induction hits as [|hit rest IH]; intros idx acc; cbn [scrape forallb].
  { intros _. by rewrite app_nil_r. }
  intros [Hhit Hrest]%andb_prop.
  destruct hit as [| | | | | |m]; try done.
  cbn [py_get]. rewrite !bind_lift_returned. cbn [emitted hit_article].
  cbn [hit_ok] in Hhit.
  destruct (truthy (default (JStr "") (m !! "link"))) eqn:Hurl; cbn [negb].
  2:{ by apply IH. }
  rewrite fetch_url_content_eq, bind_returned. cbn [calls_of outcome_of fst snd].
  cbn [negb orb] in Hhit.
  destruct (default (JStr "No title") (m !! "title")) eqn:Htitle; try done;
    cbn [py_slice_to]; rewrite bind_lift_returned, IH by done;
    cbn [calls_of outcome_of fst snd]; by rewrite <- app_assoc.
Qed.

(** ** One branch *)

(** The two ways a branch returns: the search found nothing and the branch
    stops after its single request, or the loop got through the top hits. *)
Lemma subagent_returned self w query query_type report :
  outcome_of (_run_research_subagent self w query query_type) = Returned report →
  ∃ sr, outcome_of (serper_search self w query) = Returned sr
    ∧ ((search_failed sr = true
        ∧ report = failure_report query query_type sr
        ∧ calls_of (_run_research_subagent self w query query_type)
            = [Search query (num_results self)])
       ∨ (search_failed sr = false
          ∧ ∃ hits, results_to_scrape self w query = Returned hits
              ∧ forallb hit_ok hits = true
              ∧ report = success_report query query_type sr (emitted w 1 hits)
              ∧ calls_of (_run_research_subagent self w query query_type)
                  = Search query (num_results self)
                    :: (Fetch ∘ url <$> emitted w 1 hits))).
Proof.
  unfold _run_research_subagent, results_to_scrape.
  destruct (serper_search_returns self w query) as (sr & -> & _).
  rewrite bind_returned. cbn [outcome_of calls_of fst snd obind].
  fold (search_failed sr). intros Hret. exists sr. split; [done|].
  destruct (search_failed sr) eqn:Hfail.
  - left. simpl in Hret. injection Hret as <-. done.
  - right. split; [done|].
    destruct (py_slice_items (sr_results sr) (num_results self)) as [hits|e];
      [|done].
    rewrite bind_lift_returned in Hret |- *.
    rewrite outcome_of_bind in Hret. rewrite calls_of_bind.
    destruct (outcome_of (scrape w 1 hits [])) as [arts|e] eqn:Hscrape; [|done].
    apply scrape_returned in Hscrape as (-> & Hcalls & Hok).
    simpl in Hret. injection Hret as <-. exists hits.
    rewrite Hcalls. simpl. by rewrite app_nil_r.
Qed.

(** A branch whose hits are well formed returns. *)
Lemma subagent_total self w query query_type sr hits :
  outcome_of (serper_search self w query) = Returned sr →
  search_failed sr = false →
  py_slice_items (sr_results sr) (num_results self) = Returned hits →
  forallb hit_ok hits = true →
  outcome_of (_run_research_subagent self w query query_type)
    = Returned (success_report query query_type sr (emitted w 1 hits)).
Proof.
  intros Hsr Hfail Hhits Hok. unfold _run_research_subagent.
  destruct (serper_search_returns self w query) as (sr' & E & _).
  rewrite E in Hsr |- *. injection Hsr as ->.
  rewrite bind_returned. cbn [outcome_of calls_of fst snd].
  fold (search_failed sr). rewrite Hfail, Hhits, bind_lift_returned.
  by rewrite scrape_total.
Qed.

Lemma subagent_query_type self w q tag report :
  outcome_of (_run_research_subagent self w q tag) = Returned report →
  query_type report = tag.
Proof.
  intros H.
  apply subagent_returned in H
    as (sr & _ & [(_ & -> & _)|(_ & hits & _ & _ & -> & _)]); done.
Qed.

Example demo_branch :
  _run_research_subagent demo_self demo_world (JStr "p") "primary"
  = ([Search (JStr "p") 3; Fetch (JStr "http://a"); Fetch (JStr "http://c")],
     Returned (demo_report (JStr "p") "primary")).
Proof. vm_compute. reflexivity. Qed.

Example demo_search_denied :
  outcome_of (serper_search demo_self demo_world (JStr "denied"))
  = Returned (search_failure (JStr "denied")
      (Exn HTTPError
         "403 Client Error: Forbidden for url: https://google.serper.dev/search")).
Proof. vm_compute. reflexivity. Qed.

Example demo_branch_no_hits :
  _run_research_subagent demo_self demo_world (JStr "none") "primary"
  = ([Search (JStr "none") 3],
     Returned {| query_type := "primary";
                 query := Some (JStr "none");
                 num_articles := None;
                 articles := [];
                 error := Some "No results found";
                 search_metadata := None |}).
Proof. vm_compute. reflexivity. Qed.

Example demo_branch_timeout :
  _run_research_subagent demo_self demo_world (JStr "o1") "orthogonal_1"
  = ([Search (JStr "o1") 3], Returned demo_timeout_report).
Proof. vm_compute. reflexivity. Qed.

(** A failed or empty search ends the branch after its single request. *)
Lemma subagent_search_failed self w q tag sr :
  outcome_of (serper_search self w q) = Returned sr →
  search_failed sr = true →
  _run_research_subagent self w q tag
    = ([Search q (num_results self)], Returned (failure_report q tag sr)).
Proof.
  intros Hsr Hfail. unfold _run_research_subagent.
  destruct (serper_search_returns self w q) as (sr' & E & _).
  rewrite E in Hsr |- *. injection Hsr as ->.
  rewrite bind_returned. cbn [outcome_of calls_of fst snd].
  fold (search_failed sr). by rewrite Hfail.
Qed.

(** The articles of a returned report come from the provider's hits: the
    article of position [p] from the hit of rank [p], within the limit. *)
Lemma subagent_article_hit self w q tag report article :
  outcome_of (_run_research_subagent self w q tag) = Returned report →
  article ∈ articles report →
  ∃ sr organic m,
    outcome_of (serper_search self w q) = Returned sr
    ∧ sr_results sr = JArr organic
    ∧ (1 ≤ position article)%nat
    ∧ organic !! (position article - 1)%nat = Some (JObj m)
    ∧ (0 ≤ num_results self → Z.of_nat (position article) ≤ num_results self)
    ∧ truthy (get_or_empty m "link") = true
    ∧ article = article_data (position article)
                  (default (JStr "No title") (m !! "title"))
                  (get_or_empty m "link") (get_or_empty m "snippet")
                  (fetched w (get_or_empty m "link")).
Proof.
  intros Hret Hin.
  apply subagent_returned in Hret
    as (sr & Hsr & [(_ & -> & _)|(_ & hits & Hhits & _ & -> & _)]).
  { by apply elem_of_nil in Hin. }
  simpl in Hin. apply emitted_lookup in Hin as (i & hit & Hi & Ha).
  pose proof (hit_article_position _ _ _ _ Ha) as Hpos.
  apply hit_article_Some in Ha as (m & -> & Hlink & Ha).
  unfold results_to_scrape in Hhits. rewrite Hsr in Hhits. simpl in Hhits.
  unfold py_slice_items in Hhits.
  destruct (sr_results sr) as [| | | |s|organic|] eqn:Hres; simpl in Hhits;
    try done.
  - injection Hhits as <-. exfalso. clear -Hi.
    revert i Hi. induction (str_slice_to (num_results self) s) as [|c r IH];
      intros [|i]; simpl; try done. apply IH.
  - injection Hhits as <-. exists sr, organic, m.
    replace (position article - 1)%nat with i by lia.
    repeat split; try done.
    + lia.
    + by eapply list_slice_to_lookup.
    + intros Hn. apply lookup_lt_Some in Hi.
      pose proof (list_slice_to_length (num_results self) organic Hn). lia.
    + by rewrite Hpos.
Qed.

(** ** What a branch reports *)

Lemma raise_for_status_http_error (r : response) :
  400 ≤ status_code r < 600 →
  ∃ message, raise_for_status r = Raised (Exn HTTPError message).
Proof.
  intros Hs. unfold raise_for_status.
  destruct (decide (status_code r < 500)) as [Hlt|Hge].
  - rewrite (proj2 (Z.leb_le 400 _)), (proj2 (Z.ltb_lt _ 500)) by lia. eauto.
  - rewrite (proj2 (Z.ltb_ge _ 500)) by lia. rewrite andb_false_r.
    rewrite (proj2 (Z.leb_le 500 _)), (proj2 (Z.ltb_lt _ 600)) by lia. eauto.
Qed.

Lemma raise_for_status_passes (r : response) :
  ¬ (400 ≤ status_code r < 600) → raise_for_status r = Returned ().
Proof.
  intros Hs. unfold raise_for_status.
  destruct (decide (400 ≤ status_code r)) as [Hge|Hlt].
  - rewrite (proj2 (Z.ltb_ge _ 500)), andb_false_r by lia.
    by rewrite (proj2 (Z.ltb_ge _ 600)), andb_false_r by lia.
  - rewrite (proj2 (Z.leb_gt 400 _)) by lia.
    by rewrite (proj2 (Z.leb_gt 500 _)) by lia.
Qed.

(** C4, as the code has it.  The search client makes one request and returns
    a dict whatever happens.  A transport error, and a response with an error
    status (4xx or 5xx, the statuses [raise_for_status] raises an [HTTPError]
    for), give a dict that carries the query, the description of the error
    and no results; a response with any other status is read, and gives the
    error of the reading or else its hits.  A branch whose search failed
    returns, after that one request, a report with no articles and the error
    of the search; a branch whose search found no hits returns one with no
    articles and the error "No results found". *)
Theorem search_failure_is_terminal self w q tag :
  ∃ sr,
    serper_search self w q = ([Search q (num_results self)], Returned sr)
    ∧ sr_query sr = q
    ∧ (∀ e, requests_post w q (num_results self) = Raised e →
         sr_error sr = Some (exn_str e) ∧ sr_results sr = JArr [])
    ∧ (∀ resp, requests_post w q (num_results self) = Returned resp →
         400 ≤ status_code resp < 600 →
         ∃ message,
           raise_for_status resp = Raised (Exn HTTPError message)
           ∧ sr_error sr = Some message ∧ sr_results sr = JArr [])
    ∧ (∀ resp, requests_post w q (num_results self) = Returned resp →
         ¬ (400 ≤ status_code resp < 600) →
         match (body ←! response_json resp;
                organic ←! py_get body "organic" (JArr []);
                py_len organic;;!
                Returned organic) with
         | Returned organic => sr_error sr = None ∧ sr_results sr = organic
         | Raised e => sr_error sr = Some (exn_str e) ∧ sr_results sr = JArr []
         end)
    ∧ (∀ message, sr_error sr = Some message →
         _run_research_subagent self w q tag
         = ([Search q (num_results self)],
            Returned {| query_type := tag;
                        query := Some q;
                        num_articles := None;
                        articles := [];
                        error := Some message;
                        search_metadata := None |}))
    ∧ (sr_error sr = None → truthy (sr_results sr) = false →
         _run_research_subagent self w q tag
         = ([Search q (num_results self)],
            Returned {| query_type := tag;
                        query := Some q;
                        num_articles := None;
                        articles := [];
                        error := Some "No results found";
                        search_metadata := None |})).
Proof.
  destruct (serper_search_returns self w q) as (sr & Hsr & Hq).
  exists sr. split; [done|]. split; [done|].
  assert (∀ e, (resp ←! requests_post w q (num_results self);
                raise_for_status resp) = Raised e →
               sr_error sr = Some (exn_str e) ∧ sr_results sr = JArr [])
    as Hcaptured.
  { intros e He. pose proof (serper_search_captures self w q e He) as Hc.
    rewrite Hsr in Hc. by injection Hc as ->. }
  split; [|split; [|split; [|split]]].
  - intros e He. apply Hcaptured. by rewrite He.
  - intros resp Hresp Hstatus.
    destruct (raise_for_status_http_error resp Hstatus) as [message He].
    exists message. split; [done|].
    apply (Hcaptured (Exn HTTPError message)). by rewrite Hresp.
  - intros resp Hresp Hstatus.
    pose proof (raise_for_status_passes resp Hstatus) as Hpass.
    revert Hsr. unfold serper_search, perform. rewrite Hresp. simpl.
    rewrite Hpass. simpl.
    destruct (response_json resp) as [body|e]; simpl; [|by intros [= <-]].
    destruct body as [| | | | | |m]; simpl; try by intros [= <-].
    destruct (py_len (default (JArr []) (m !! "organic"))); simpl;
      by intros [= <-].
  - intros message Hmessage.
    rewrite (subagent_search_failed self w q tag sr).
    + unfold failure_report. by rewrite Hmessage.
    + by rewrite Hsr.
    + unfold search_failed. by rewrite Hmessage.
  - intros Hnone Hempty.
    rewrite (subagent_search_failed self w q tag sr).
    + unfold failure_report. by rewrite Hnone.
    + by rewrite Hsr.
    + unfold search_failed. by rewrite Hempty, orb_true_r.
Qed.

(** C4, counterexample.  The provider answers with status 304 and four hits:
    the status is not among those [raise_for_status] raises for, the search
    returns the hits without an error and the branch reports two articles. *)
Lemma non_2xx_answer_is_read :
  ∃ resp sr,
    requests_post not_modified_world (JStr "p") (num_results demo_self)
      = Returned resp
    ∧ ¬ (200 ≤ status_code resp < 300)
    ∧ serper_search demo_self not_modified_world (JStr "p")
      = ([Search (JStr "p") 3], Returned sr)
    ∧ sr_error sr = None
    ∧ outcome_of (_run_research_subagent demo_self not_modified_world
                    (JStr "p") "primary")
      = Returned (demo_report (JStr "p") "primary").
Proof.
  do 2 eexists. split; [reflexivity|]. split; [simpl; lia|].
  split; [vm_compute; reflexivity|]. split; [reflexivity|].
  vm_compute. reflexivity.
Qed.




(** C6.  A returned report carries the tag it was run with; with a limit
    that is not negative it has at most [limit] articles; the articles are in
    rank order, each taken from the provider's hit of its rank among the top
    [limit]; the pages were fetched one after the other in that order, after
    the one search request. *)
Theorem branch_report_shape self w q tag report :
  outcome_of (_run_research_subagent self w q tag) = Returned report →
  query_type report = tag
  ∧ (0 ≤ num_results self →
       Z.of_nat (length (articles report)) ≤ num_results self)
  ∧ StronglySorted lt (position <$> articles report)
  ∧ (∀ article, article ∈ articles report →
       ∃ sr organic m,
         outcome_of (serper_search self w q) = Returned sr
         ∧ sr_results sr = JArr organic
         ∧ (1 ≤ position article)%nat
         ∧ organic !! (position article - 1)%nat = Some (JObj m)
         ∧ (0 ≤ num_results self →
              Z.of_nat (position article) ≤ num_results self)
         ∧ url article = get_or_empty m "link")
  ∧ calls_of (_run_research_subagent self w q tag)
      = Search q (num_results self) :: (Fetch ∘ url <$> articles report).
Proof.
  intros Hret. split; [by eapply subagent_query_type|].
  assert (∀ article, article ∈ articles report →
            ∃ sr organic m,
              outcome_of (serper_search self w q) = Returned sr
              ∧ sr_results sr = JArr organic
              ∧ (1 ≤ position article)%nat
              ∧ organic !! (position article - 1)%nat = Some (JObj m)
              ∧ (0 ≤ num_results self →
                   Z.of_nat (position article) ≤ num_results self)
              ∧ url article = get_or_empty m "link") as Hhit.
  { intros article Hin.
    destruct (subagent_article_hit _ _ _ _ _ _ Hret Hin)
      as (sr & organic & m & ? & ? & ? & ? & ? & ? & Ha).
    exists sr, organic, m. rewrite Ha. done. }
  pose proof Hret as Hcases.
  apply subagent_returned in Hcases
    as (sr & Hsr & [(_ & -> & Hcalls)|(_ & hits & Hhits & _ & -> & Hcalls)]).
  { repeat split; try done; simpl; try lia; try constructor. }
  simpl articles in *. repeat split; try done.
  - intros Hn. rewrite emitted_length.
    unfold results_to_scrape in Hhits. rewrite Hsr in Hhits. simpl in Hhits.
    unfold py_slice_items in Hhits.
    etrans; [apply inj_le, length_filter|].
    destruct (sr_results sr) as [| | | |s|organic|]; simpl in Hhits; try done;
      injection Hhits as <-.
    + rewrite str_chars_length, str_slice_to_nonneg by done.
      pose proof (str_take_length (Z.to_nat (num_results self)) s). lia.
    + by apply list_slice_to_length.
  - apply emitted_sorted.
Qed.

Lemma branch_report_shape_witness :
  query_type (demo_report (JStr "p") "primary") = "primary"
  ∧ (0 ≤ num_results demo_self →
       Z.of_nat (length (articles (demo_report (JStr "p") "primary")))
       ≤ num_results demo_self)
  ∧ StronglySorted lt (position <$> articles (demo_report (JStr "p") "primary"))
  ∧ (∀ article, article ∈ articles (demo_report (JStr "p") "primary") →
       ∃ sr organic m,
         outcome_of (serper_search demo_self demo_world (JStr "p")) = Returned sr
         ∧ sr_results sr = JArr organic
         ∧ (1 ≤ position article)%nat
         ∧ organic !! (position article - 1)%nat = Some (JObj m)
         ∧ (0 ≤ num_results demo_self →
              Z.of_nat (position article) ≤ num_results demo_self)
         ∧ url article = get_or_empty m "link")
  ∧ calls_of (_run_research_subagent demo_self demo_world (JStr "p") "primary")
      = Search (JStr "p") (num_results demo_self)
        :: (Fetch ∘ url <$> articles (demo_report (JStr "p") "primary")).
Proof.
  apply (branch_report_shape demo_self demo_world (JStr "p") "primary").
  vm_compute. reflexivity.
Defined.

(** C9.  A hit whose link is absent or empty leaves no article: every
    article has a link, no article carries the rank of such a hit, a
    successful branch reports as many articles as its top hits have links, and
    the ranks of the articles grow strictly.  Ranks may be skipped and the
    list may fall short of the limit and of the number of hits: the demo
    provider returns four hits, the limit is three, and the report holds the
    articles of ranks 1 and 3. *)
Theorem linkless_hits_are_skipped :
  (∀ self w q tag report hits,
     outcome_of (_run_research_subagent self w q tag) = Returned report →
     results_to_scrape self w q = Returned hits →
     (∀ article, article ∈ articles report → truthy (url article) = true)
     ∧ (∀ i hit article,
          hits !! i = Some hit → has_link hit = false →
          article ∈ articles report → position article ≠ S i)
     ∧ (length (articles report)
          ≤ length (filter (λ hit, has_link hit = true) hits) ≤ length hits)%nat
     ∧ (error report = None →
          length (articles report)
          = length (filter (λ hit, has_link hit = true) hits))
     ∧ StronglySorted lt (position <$> articles report))
  ∧ (∃ report hits,
       outcome_of (_run_research_subagent demo_self demo_world (JStr "p") "primary")
         = Returned report
       ∧ results_to_scrape demo_self demo_world (JStr "p") = Returned hits
       ∧ num_results demo_self = 3
       ∧ length hits = 3%nat
       ∧ position <$> articles report = [1; 3]%nat).
Proof.
  split.
  - intros self w q tag report hits Hret Hhits.
    pose proof Hret as Hcases.
    apply subagent_returned in Hcases
      as (sr & Hsr & [(_ & -> & _)|(_ & hits' & Hhits' & _ & -> & _)]).
    { simpl. repeat split; try done; try lia.
      - by intros article ?%elem_of_nil.
      - by intros i hit article _ _ ?%elem_of_nil.
      - apply length_filter.
      - constructor. }
    rewrite Hhits in Hhits'. injection Hhits' as <-. simpl articles.
    repeat split.
    + intros article Hin. apply emitted_lookup in Hin as (i & hit & _ & Ha).
      apply hit_article_Some in Ha as (m & _ & Hlink & ->). done.
    + intros i hit article Hi Hno Hin.
      by apply (emitted_skips w hits 1 i hit article).
    + by rewrite emitted_length.
    + apply length_filter.
    + intros _. apply emitted_length.
    + apply emitted_sorted.
  - exists (demo_report (JStr "p") "primary").
    eexists. split; [by vm_compute|]. split; [by vm_compute|]. done.
Qed.

(** C10.  A branch that scraped reports [num_articles], equal to the number
    of its articles; the report of a failed or empty search and the report
    made from a fault have no [num_articles], and the report synthesizer
    reads the missing field as zero.  So the field, when present, is the
    length of the article list. *)
Theorem num_articles_when_present :
  (∀ self w q tag report,
     outcome_of (_run_research_subagent self w q tag) = Returned report →
     match error report with
     | None => num_articles report = Some (length (articles report))
     | Some _ => num_articles report = None ∧ articles report = []
     end)
  ∧ (∀ tag e, num_articles (fault_report tag e) = None)
  ∧ (∀ self w refined reports,
       _execute_parallel_research self w refined = Returned reports →
       Forall (λ report, ∀ n, num_articles report = Some n →
                              n = length (articles report)) reports)
  ∧ (∀ report summary,
       summarize report = Returned summary → num_articles report = None →
       sum_num_articles summary = 0%nat).
Proof.
  assert (∀ self w q tag report,
     outcome_of (_run_research_subagent self w q tag) = Returned report →
     match error report with
     | None => num_articles report = Some (length (articles report))
     | Some _ => num_articles report = None ∧ articles report = []
     end) as Hbranch.
  { intros self w q tag report Hret.
    apply subagent_returned in Hret
      as (sr & _ & [(_ & -> & _)|(_ & hits & _ & _ & -> & _)]); done. }
  repeat split; try done.
  - intros self w refined reports. unfold _execute_parallel_research.
    destruct (create_tasks refined) as [tasks|e]; [|done]. simpl.
    rewrite gather_order. generalize 0%nat.
    revert reports. induction tasks as [|task tasks IH]; intros reports i; simpl.
    { intros [= <-]. constructor. }
    destruct (run_task self w task) as [report|e] eqn:Htask; simpl.
    + destruct (process_results (S i) _) as [others|e] eqn:Hrest; [|done].
      simpl. intros [= <-]. constructor; [|by eapply IH].
      intros n Hn. apply Hbranch in Htask. rewrite Hn in Htask.
      destruct (error report); [by destruct Htask|congruence].
    + destruct (py_index query_types i) as [tag|e']; [|done]. simpl.
      destruct (process_results (S i) _) as [others|e'] eqn:Hrest; [|done].
      simpl. intros [= <-]. constructor; [done|by eapply IH].
  - intros report summary. unfold summarize.
    destruct (mapM_outcome _ _); [|done]. simpl. intros [= <-] Hnone. simpl.
    by rewrite Hnone.
Qed.

(** ** Query refinement *)

(** Cleaning the answer never fails: a text that starts with a fence splits
    into at least two pieces. *)
Lemma clean_response_returns (text : string) :
  ∃ cleaned, clean_response text = Returned cleaned.
Proof.
  unfold clean_response.
  destruct (py_startswith "```json" (py_strip text)) eqn:Hjson.
  - apply py_split_startswith in Hjson as (second & rest & ->); [|done].
    simpl. destruct (py_split_first "```" second) as (first & rest' & ->).
    simpl. eauto.
  - destruct (py_startswith "```" (py_strip text)) eqn:Hfence; [|eauto].
    apply py_split_startswith in Hfence as (second & rest & ->); [|done].
    simpl. destruct (py_split_first "```" second) as (first & rest' & ->).
    simpl. eauto.
Qed.

Lemma fallback_queries_nonempty (user_query : string) :
  user_query ≠ "" → query_strings_nonempty (fallback_queries user_query).
Proof.
  intros Hne key Hkey. unfold fallback_queries.
  assert (∀ suffix, user_query +:+ suffix ≠ "") as Happ.
  { intros suffix. by destruct user_query. }
  repeat (apply elem_of_cons in Hkey as [->|Hkey]);
    [| | | |by apply elem_of_nil in Hkey];
    eexists; (split; [reflexivity|]); done.
Qed.

(** The [try] block fails with a decoding error exactly when the decoder
    does. *)
Lemma parse_refined_decode_error w text cleaned e :
  clean_response text = Returned cleaned →
  json_loads w cleaned = Raised e →
  parse_refined w text = Raised e.
Proof. intros Hc Hl. unfold parse_refined. rewrite Hc. simpl. by rewrite Hl. Qed.

Lemma parse_refined_dict w text cleaned m :
  clean_response text = Returned cleaned →
  json_loads w cleaned = Returned (JObj m) →
  is_Some (m !! "primary") → is_Some (m !! "orthogonal_1") →
  is_Some (m !! "orthogonal_2") →
  parse_refined w text = Returned (JObj m).
Proof.
  intros Hc Hl [? H1] [? H2] [? H3]. unfold parse_refined.
  rewrite Hc. simpl. rewrite Hl. simpl. by rewrite H1, H2, H3.
Qed.

(** Whatever [_refine_queries] returns is a dict. *)
Lemma refine_queries_dict w user_query refined :
  _refine_queries w user_query = Returned refined → ∃ m, refined = JObj m.
Proof.
  unfold _refine_queries.
  destruct (generate_queries w user_query) as [text|e]; [|done]. simpl.
  destruct (parse_refined w text) as [parsed|e] eqn:Hparse.
  - intros [= <-]. unfold parse_refined in Hparse.
    destruct (clean_response text); [|done]. simpl in Hparse.
    destruct (json_loads w a) as [v|]; [|done]. simpl in Hparse.
    destruct v as [| | | | | |m]; try done. exists m.
    apply obind_returned_inv in Hparse as (? & _ & Hparse).
    apply obind_returned_inv in Hparse as (? & _ & Hparse).
    apply obind_returned_inv in Hparse as (? & _ & Hparse).
    congruence.
  - destruct (is_JSONDecodeError e); [|done]. intros [= <-].
    unfold fallback_queries. eauto.
Qed.

(** C2, as the code has it.  The answer is cleaned without fault.  When the
    decoder rejects the cleaned text, [_refine_queries] returns the fallback
    query set, whose four query strings are non-empty for a non-empty user
    query.  When the text decodes to a dict that has the three queries, the
    dict is returned as decoded: nothing checks that its strings are
    non-empty or that it names the original query. *)
Theorem refine_queries_outcomes w user_query text :
  generate_queries w user_query = Returned text →
  ∃ cleaned,
    clean_response text = Returned cleaned
    ∧ (∀ e, json_loads w cleaned = Raised e → is_JSONDecodeError e = true →
         _refine_queries w user_query = Returned (fallback_queries user_query)
         ∧ (user_query ≠ "" →
              query_strings_nonempty (fallback_queries user_query)))
    ∧ (∀ m, json_loads w cleaned = Returned (JObj m) →
         is_Some (m !! "primary") → is_Some (m !! "orthogonal_1") →
         is_Some (m !! "orthogonal_2") →
         _refine_queries w user_query = Returned (JObj m)).
Proof.
  intros Hgen. destruct (clean_response_returns text) as [cleaned Hclean].
  exists cleaned. split; [done|]. unfold _refine_queries. rewrite Hgen. simpl.
  split.
  - intros e Hl He.
    rewrite (parse_refined_decode_error w text cleaned e Hclean Hl), He.
    split; [done|]. apply fallback_queries_nonempty.
  - intros m Hl H1 H2 H3.
    by rewrite (parse_refined_dict w text cleaned m Hclean Hl H1 H2 H3).
Qed.

Lemma refine_queries_outcomes_witness :
  ∃ cleaned,
    clean_response "Here are three queries you could try." = Returned cleaned
    ∧ (∀ e, json_loads prose_world cleaned = Raised e →
         is_JSONDecodeError e = true →
         _refine_queries prose_world "rust async" = Returned (fallback_queries "rust async")
         ∧ ("rust async" ≠ "" →
              query_strings_nonempty (fallback_queries "rust async")))
    ∧ (∀ m, json_loads prose_world cleaned = Returned (JObj m) →
         is_Some (m !! "primary") → is_Some (m !! "orthogonal_1") →
         is_Some (m !! "orthogonal_2") →
         _refine_queries prose_world "rust async" = Returned (JObj m)).
Proof.
  apply (refine_queries_outcomes prose_world "rust async"
           "Here are three queries you could try.").
  reflexivity.
Defined.

(** C2, counterexample.  The generator answers with well-formed JSON whose
    primary query is the empty string: the answer is returned as it is, with
    an empty query string, and no fallback takes place. *)
Lemma refine_returns_empty_primary :
  generate_queries empty_primary_world "q"
    = Returned (quoted "{'original': 'q', 'primary': '', 'orthogonal_1': 'a', 'orthogonal_2': 'b'}")
  ∧ _refine_queries empty_primary_world "q" = Returned (JObj empty_primary_queries)
  ∧ empty_primary_queries !! "primary" = Some (JStr "")
  ∧ JObj empty_primary_queries ≠ fallback_queries "q"
  ∧ ¬ query_strings_nonempty (JObj empty_primary_queries).
Proof.
  split; [reflexivity|]. split; [vm_compute; reflexivity|].
  split; [reflexivity|]. split.
  - intros H. apply (f_equal (λ d, py_item d "primary")) in H.
    vm_compute in H. discriminate.
  - intros H. destruct (H "primary") as (s & Hs & Hne).
    { apply elem_of_cons. right. apply elem_of_cons. by left. }
    vm_compute in Hs. injection Hs as <-. done.
Qed.

(** Well-formed JSON without the primary query is not recovered either: the
    progress message reads [refined['primary']] and the [KeyError] is not a
    [JSONDecodeError]. *)
Example refine_raises_on_missing_key :
  _refine_queries missing_key_world "q" = Raised (Exn KeyError "'primary'").
Proof. vm_compute. reflexivity. Qed.

(** A fenced answer is unwrapped before decoding. *)
Example refine_unwraps_fence :
  ∃ m, _refine_queries demo_world "q" = Returned (JObj m)
       ∧ m !! "primary" = Some (JStr "p")
       ∧ m !! "orthogonal_1" = Some (JStr "o1")
       ∧ m !! "orthogonal_2" = Some (JStr "o2").
Proof. eexists. split; [vm_compute; reflexivity|]. done. Qed.

(** C3, as the code has it.  When the [except] branch is taken, the query set
    is the user query itself as original and as primary query, the user query
    followed by " latest research" and by " expert analysis" as the two
    orthogonal queries, and three fixed reasoning strings. *)
Theorem fallback_query_set w user_query text e :
  generate_queries w user_query = Returned text →
  parse_refined w text = Raised e →
  is_JSONDecodeError e = true →
  ∃ m reasoning,
    _refine_queries w user_query = Returned (JObj m)
    ∧ m !! "original" = Some (JStr user_query)
    ∧ m !! "primary" = Some (JStr user_query)
    ∧ m !! "orthogonal_1" = Some (JStr (user_query +:+ " latest research"))
    ∧ m !! "orthogonal_2" = Some (JStr (user_query +:+ " expert analysis"))
    ∧ m !! "reasoning" = Some (JObj reasoning)
    ∧ reasoning !! "primary" = Some (JStr "Using original query")
    ∧ reasoning !! "orthogonal_1" = Some (JStr "Latest research angle")
    ∧ reasoning !! "orthogonal_2" = Some (JStr "Expert analysis angle")
    ∧ dom m = {[ "original"; "primary"; "orthogonal_1"; "orthogonal_2"; "reasoning" ]}
    ∧ dom reasoning = {[ "primary"; "orthogonal_1"; "orthogonal_2" ]}.
Proof.
  intros Hgen Hparse He. unfold _refine_queries. rewrite Hgen. simpl.
  rewrite Hparse, He. unfold fallback_queries. do 2 eexists.
  split; [reflexivity|]. repeat split; reflexivity.
Qed.

Lemma fallback_query_set_witness :
  ∃ m reasoning,
    _refine_queries prose_world "rust async" = Returned (JObj m)
    ∧ m !! "original" = Some (JStr "rust async")
    ∧ m !! "primary" = Some (JStr "rust async")
    ∧ m !! "orthogonal_1" = Some (JStr ("rust async" +:+ " latest research"))
    ∧ m !! "orthogonal_2" = Some (JStr ("rust async" +:+ " expert analysis"))
    ∧ m !! "reasoning" = Some (JObj reasoning)
    ∧ reasoning !! "primary" = Some (JStr "Using original query")
    ∧ reasoning !! "orthogonal_1" = Some (JStr "Latest research angle")
    ∧ reasoning !! "orthogonal_2" = Some (JStr "Expert analysis angle")
    ∧ dom m = {[ "original"; "primary"; "orthogonal_1"; "orthogonal_2"; "reasoning" ]}
    ∧ dom reasoning = {[ "primary"; "orthogonal_1"; "orthogonal_2" ]}.
Proof.
  apply (fallback_query_set prose_world "rust async"
           "Here are three queries you could try." Json.decode_error).
  - reflexivity.
  - vm_compute. reflexivity.
  - reflexivity.
Defined.

(** C3, counterexample.  For the user query "rust async" and an answer in
    prose, the first orthogonal query of the fallback is
    "rust async latest research"; the words "recent developments" do not
    occur in it. *)
Lemma fallback_qualifier_is_latest_research :
  generate_queries prose_world "rust async"
    = Returned "Here are three queries you could try."
  ∧ _refine_queries prose_world "rust async" = Returned (fallback_queries "rust async")
  ∧ py_item (fallback_queries "rust async") "orthogonal_1"
      = Returned (JStr "rust async latest research")
  ∧ mentions "recent developments" "rust async latest research" = false
  ∧ mentions "latest research" "rust async latest research" = true.
Proof. repeat split; vm_compute; reflexivity. Qed.

(** ** The fan-out *)

Lemma create_tasks_dict (m : gmap string json) :
  create_tasks (JObj m)
    = Returned ((λ tag, (get_or_empty m tag, tag)) <$> launched m).
Proof.
  unfold create_tasks, launched, query_types, get_or_empty.
  rewrite !filter_cons, filter_nil. cbn [foldl obind py_get].
  destruct (truthy (default (JStr "") (m !! "primary")));
    destruct (truthy (default (JStr "") (m !! "orthogonal_1")));
    destruct (truthy (default (JStr "") (m !! "orthogonal_2"))); reflexivity.
Qed.

Lemma launched_sublist (m : gmap string json) : launched m `sublist_of` query_types.
Proof. apply sublist_filter. Qed.

Lemma launched_length (m : gmap string json) : (length (launched m) ≤ 3)%nat.
Proof. apply (sublist_length _ _ (launched_sublist m)). Qed.

(** With all three branches launched, every result is tagged with the query
    type of its own branch. *)
Lemma process_results_all (r1 r2 r3 : outcome BranchReport) :
  process_results 0 [r1; r2; r3]
    = Returned [report_of "primary" r1; report_of "orthogonal_1" r2;
                report_of "orthogonal_2" r3].
Proof. by destruct r1, r2, r3. Qed.

(** The loop over the results never indexes [query_types] out of range. *)
Lemma process_results_returns (results : list (outcome BranchReport)) (i : nat) :
  (i + length results ≤ 3)%nat →
  ∃ reports,
    process_results i results = Returned reports
    ∧ Forall2 (λ result report,
                 match result with
                 | Returned branch_report => report = branch_report
                 | Raised e => ∃ tag, report = fault_report tag e
                 end) results reports.
Proof.
  revert i. induction results as [|result rest IH]; intros i Hlen; simpl.
  { eexists. split; [done|constructor]. }
  simpl in Hlen. destruct (IH (S i)) as (others & Hothers & Hall); [lia|].
  rewrite Hothers. destruct result as [report|e]; simpl.
  - eexists. split; [done|]. by constructor.
  - destruct (lookup_lt_is_Some_2 query_types i) as [tag Htag];
      [simpl; lia|].
    unfold py_index. rewrite Htag. simpl.
    eexists. split; [done|]. constructor; eauto.
Qed.

(** A branch does not read the order of completion. *)
Lemma scrape_any_completion w (order : list nat) hits : ∀ idx acc,
  scrape (with_completion w order) idx hits acc = scrape w idx hits acc.
Proof.
  induction hits as [|hit rest IH]; intros idx acc; [done|].
  cbn [scrape]. destruct (py_get hit "link" (JStr "")) as [u|e]; [|done].
  rewrite !bind_lift_returned.
  destruct (py_get hit "title" (JStr "No title")) as [t|e]; [|done].
  rewrite !bind_lift_returned.
  destruct (py_get hit "snippet" (JStr "")) as [s|e]; [|done].
  rewrite !bind_lift_returned.
  destruct (negb (truthy u)); [apply IH|].
  change (_fetch_url_content (with_completion w order) u)
    with (_fetch_url_content w u).
  destruct (_fetch_url_content w u) as [calls [content|e]]; [|done].
  rewrite !bind_returned. destruct (py_slice_to t 50); [|done].
  by rewrite !bind_lift_returned, IH.
Qed.

Lemma run_task_any_completion self w (order : list nat) task :
  run_task self (with_completion w order) task = run_task self w task.
Proof.
  unfold run_task, _run_research_subagent.
  change (serper_search self (with_completion w order) task.1)
    with (serper_search self w task.1).
  destruct (serper_search self w task.1) as [calls [sr|e]]; [|done].
  rewrite !bind_returned. destruct (_ || _); [done|].
  destruct (py_slice_items _ _) as [hits|e]; [|done].
  by rewrite !bind_lift_returned, scrape_any_completion.
Qed.

(** The fan-out does not depend on the order of completion. *)
Lemma fan_out_any_completion self w refined (order : list nat) :
  _execute_parallel_research self (with_completion w order) refined
  = _execute_parallel_research self w refined.
Proof.
  unfold _execute_parallel_research.
  destruct (create_tasks refined) as [tasks|e]; [|done]. simpl.
  rewrite !gather_order. f_equal. apply list_fmap_ext.
  intros _ task _. apply run_task_any_completion.
Qed.

(** The fan-out returns for every dict: one report per launched branch, the
    branch's own report or a fault report. *)
Lemma fan_out_returns self w (m : gmap string json) :
  ∃ reports,
    _execute_parallel_research self w (JObj m) = Returned reports
    ∧ process_results 0
        (run_task self w <$> ((λ tag, (get_or_empty m tag, tag)) <$> launched m))
      = Returned reports
    ∧ Forall2 (λ tag report,
                 match run_task self w (get_or_empty m tag, tag) with
                 | Returned branch_report => report = branch_report
                 | Raised e => ∃ tag', report = fault_report tag' e
                 end) (launched m) reports.
Proof.
  destruct (process_results_returns
              (run_task self w <$> ((λ tag, (get_or_empty m tag, tag)) <$> launched m)) 0)
    as (reports & Hreports & Hall).
  { rewrite !length_fmap. apply launched_length. }
  exists reports. repeat split; [|done|].
  - unfold _execute_parallel_research. rewrite create_tasks_dict. simpl.
    by rewrite gather_order.
  - rewrite <- list_fmap_compose in Hall. by apply Forall2_fmap_l in Hall.
Qed.

Lemma report_of_query_type self w q tag :
  query_type (report_of tag (run_task self w (q, tag))) = tag.
Proof.
  unfold run_task. simpl.
  destruct (outcome_of (_run_research_subagent self w q tag)) eqn:E; [|done].
  by apply subagent_query_type in E.
Qed.

(** C1, as the code has it.  For a query set that is a dict, the fan-out
    returns one report for each query type whose query is present and truthy,
    in the canonical order and whatever the order of completion: three reports
    tagged primary, orthogonal_1, orthogonal_2 when all three queries are
    non-empty, fewer otherwise.  A branch that returns contributes its own
    report, tagged with its query type.  A fault of a branch becomes a report
    with that error and no articles, and with all three branches launched the
    report carries the query type of the branch that raised.  Each report
    depends on its own branch only. *)
Theorem fan_out_reports self w (m : gmap string json) :
  ∃ reports,
    _execute_parallel_research self w (JObj m) = Returned reports
    ∧ (∀ order,
         _execute_parallel_research self (with_completion w order) (JObj m)
         = Returned reports)
    ∧ length reports = length (launched m)
    ∧ Forall2 (λ tag report,
                 match run_task self w (get_or_empty m tag, tag) with
                 | Returned branch_report =>
                     report = branch_report ∧ query_type report = tag
                 | Raised e =>
                     error report = Some (exn_str e) ∧ articles report = []
                 end) (launched m) reports
    ∧ (launched m = query_types →
         reports = (λ tag, report_of tag (run_task self w (get_or_empty m tag, tag)))
                     <$> query_types
         ∧ query_type <$> reports = query_types).
Proof.
  destruct (fan_out_returns self w m) as (reports & Hfan & Hreports & Hall).
  exists reports. split; [done|]. split.
  { intros order. by rewrite fan_out_any_completion. }
  split; [symmetry; by eapply Forall2_length|]. split.
  - eapply Forall2_impl; [exact Hall|]. intros tag report. simpl.
    destruct (run_task self w (get_or_empty m tag, tag)) as [branch_report|e] eqn:E.
    + intros ->. split; [done|]. by eapply subagent_query_type.
    + by intros [tag' ->].
  - intros Hall3. rewrite Hall3 in Hreports.
    unfold query_types in Hreports. cbn [fmap list_fmap] in Hreports.
    rewrite process_results_all in Hreports. injection Hreports as <-.
    split; [done|]. cbn [fmap list_fmap]. by rewrite !report_of_query_type.
Qed.

(** C1, counterexample.  The generator's answer has an empty primary query;
    the fan-out launches two branches and returns two reports. *)
Lemma fan_out_skips_empty_query :
  _refine_queries empty_primary_world "q" = Returned (JObj empty_primary_queries)
  ∧ _execute_parallel_research demo_self empty_primary_world
      (JObj empty_primary_queries)
    = Returned [demo_report (JStr "a") "orthogonal_1";
                demo_report (JStr "b") "orthogonal_2"].
Proof. split; vm_compute; reflexivity. Qed.

(** With a branch left out, the tag of a fault report is read at the position
    of the result, not of the branch: the fault of the orthogonal_1 branch is
    reported as primary. *)
Example fault_tag_shifts_after_skipped_query :
  run_task demo_self shifted_tag_world (JStr "odd", "orthogonal_1")
    = Raised (Exn AttributeError "'int' object has no attribute 'get'")
  ∧ _execute_parallel_research demo_self shifted_tag_world
      (JObj shifted_tag_queries)
    = Returned [fault_report "primary"
                  (Exn AttributeError "'int' object has no attribute 'get'");
                demo_report (JStr "b") "orthogonal_2"].
Proof. split; vm_compute; reflexivity. Qed.

Example demo_fan_out :
  _execute_parallel_research demo_self demo_world (JObj demo_queries)
    = Returned demo_reports.
Proof. vm_compute. reflexivity. Qed.

(** ** The report *)

Lemma mapM_outcome_returned {A B} (f : A → outcome B) (l : list A) (l' : list B) :
  mapM_outcome f l = Returned l' → Forall2 (λ x y, f x = Returned y) l l'.
Proof.
  revert l'. induction l as [|x l IH]; intros l'; simpl.
  { intros [= <-]. constructor. }
  intros (y & Hy & H)%obind_returned_inv.
  apply obind_returned_inv in H as (ys & Hys & [= <-]).
  constructor; [done|by apply IH].
Qed.



(** ** The whole run *)

Lemma save_results_returns w dir reports :
  outcome_of (save_results w dir reports) = Returned ().
Proof.
  induction reports as [|report rest IH]; [done|].
  cbn [save_results]. by rewrite outcome_of_bind.
Qed.

(** The outcome of a run: the session storage never fails in the model, so
    the run fails exactly when the refinement, the fan-out or the report
    generation does. *)
Lemma orchestrator_outcome self w user_query :
  outcome_of (research_with_orchestrator self w user_query)
  = (refined ←! _refine_queries w user_query;
     reports ←! _execute_parallel_research self w refined;
     text ←! _generate_report w user_query refined reports;
     Returned {| session_dir := "research_sessions/" +:+ now w;
                 queries := refined;
                 results := reports;
                 report := text |}).
Proof.
  unfold research_with_orchestrator, create_session_directory, save_json,
    perform, lift, ret. simpl.
  destruct (_refine_queries w user_query) as [refined|e]; [|done]. simpl.
  destruct (_execute_parallel_research self w refined) as [reports|e]; [|done].
  simpl.
  pose proof (save_results_returns w ("research_sessions/" +:+ now w) reports)
    as Hsaved.
  destruct (save_results w ("research_sessions/" +:+ now w) reports)
    as [calls saved].
  simpl in Hsaved. subst saved. simpl.
  by destruct (_generate_report w user_query refined reports).
Qed.

(** C8.  Once the query refinement has returned, the fan-out returns its
    reports, a failed branch (one that raised, or whose search failed or
    found nothing) showing no articles and an error.  If the generation call
    of the report fails, the fault is the outcome of the run and no result is
    returned; if the report is generated, the run returns the complete
    result, failed branches included. *)
Theorem orchestrator_outcomes self w user_query refined :
  _refine_queries w user_query = Returned refined →
  ∃ m reports,
    refined = JObj m
    ∧ _execute_parallel_research self w refined = Returned reports
    ∧ Forall2 (λ tag report,
                 branch_failed self w (get_or_empty m tag) tag →
                 articles report = [] ∧ is_Some (error report))
        (launched m) reports
    ∧ (∀ summary e,
         build_summary user_query refined reports = Returned summary →
         generate_report w summary = Raised e →
         outcome_of (research_with_orchestrator self w user_query) = Raised e)
    ∧ (∀ text,
         _generate_report w user_query refined reports = Returned text →
         outcome_of (research_with_orchestrator self w user_query)
         = Returned {| session_dir := "research_sessions/" +:+ now w;
                       queries := refined;
                       results := reports;
                       report := text |}).
Proof.
  intros Hrefine.
  destruct (refine_queries_dict _ _ _ Hrefine) as [m ->].
  destruct (fan_out_returns self w m) as (reports & Hfan & _ & Hall).
  exists m, reports. split; [done|]. split; [done|]. split.
  - eapply Forall2_impl; [exact Hall|]. intros tag report Hreport Hfailed.
    unfold run_task in Hreport. simpl in Hreport.
    destruct (outcome_of (_run_research_subagent self w (get_or_empty m tag) tag))
      as [branch_report|e] eqn:Hbranch.
    + subst report.
      destruct Hfailed as [[e He]|(sr & Hsr & Hfail)]; [congruence|].
      rewrite (subagent_search_failed self w _ tag sr Hsr Hfail) in Hbranch.
      injection Hbranch as <-. simpl. eauto.
    + destruct Hreport as [tag' ->]. simpl. eauto.
  - rewrite orchestrator_outcome, Hrefine. simpl. rewrite Hfan. simpl.
    unfold _generate_report. split.
    + intros summary e -> He. simpl. by rewrite He.
    + by intros text ->.
Qed.

Lemma orchestrator_outcomes_witness :
  ∃ m reports,
    JObj demo_queries = JObj m
    ∧ _execute_parallel_research demo_self demo_world (JObj demo_queries)
        = Returned reports
    ∧ Forall2 (λ tag report,
                 branch_failed demo_self demo_world (get_or_empty m tag) tag →
                 articles report = [] ∧ is_Some (error report))
        (launched m) reports
    ∧ (∀ summary e,
         build_summary "q" (JObj demo_queries) reports = Returned summary →
         generate_report demo_world summary = Raised e →
         outcome_of (research_with_orchestrator demo_self demo_world "q")
         = Raised e)
    ∧ (∀ text,
         _generate_report demo_world "q" (JObj demo_queries) reports
           = Returned text →
         outcome_of (research_with_orchestrator demo_self demo_world "q")
         = Returned {| session_dir := "research_sessions/" +:+ now demo_world;
                       queries := JObj demo_queries;
                       results := reports;
                       report := text |}).
Proof.
  apply (orchestrator_outcomes demo_self demo_world "q" (JObj demo_queries)).
  vm_compute. reflexivity.
Defined.

Example demo_run :
  outcome_of (research_with_orchestrator demo_self demo_world "q")
  = Returned {| session_dir := "research_sessions/2025-01-01_12-00-00";
                queries := JObj demo_queries;
                results := demo_reports;
                report := "# Research Report" |}.
Proof. vm_compute. reflexivity. Qed.

Example demo_run_files :
  (λ c, match c with
        | Mkdir path | WriteFile path _ => path
        | Search (JStr q) _ => "search " +:+ q
        | Fetch (JStr u) => "fetch " +:+ u
        | _ => ""
        end) <$> calls_of (research_with_orchestrator demo_self demo_world "q")
  = ["research_sessions/2025-01-01_12-00-00";
     "research_sessions/2025-01-01_12-00-00/queries.json";
     "search p"; "search o1"; "search o2";
     "fetch http://a"; "fetch http://a"; "fetch http://c"; "fetch http://c";
     "research_sessions/2025-01-01_12-00-00/research_results_primary.json";
     "research_sessions/2025-01-01_12-00-00/research_results_orthogonal_1.json";
     "research_sessions/2025-01-01_12-00-00/research_results_orthogonal_2.json";
     "research_sessions/2025-01-01_12-00-00/final_report.md"].
Proof. vm_compute. reflexivity. Qed.

Example failing_report_run :
  outcome_of (research_with_orchestrator demo_self failing_report_world "q")
  = Raised (Exn (OtherError "ProcessError") "generation failed").
Proof. vm_compute. reflexivity. Qed.

(** * Further properties of the code *)

(** ** Strings *)

Lemma str_app_nil_r (s : string) : s +:+ "" = s.
Proof.
  induction s as [|c s IH]; [done|].
  change (String c (s +:+ "") = String c s). by rewrite IH.
Qed.

Lemma str_app_assoc (s1 s2 s3 : string) : (s1 +:+ s2) +:+ s3 = s1 +:+ s2 +:+ s3.
Proof.
  induction s1 as [|c s1 IH]; [done|].
  change (String c ((s1 +:+ s2) +:+ s3) = String c (s1 +:+ s2 +:+ s3)).
  by rewrite IH.
Qed.

Lemma str_length_app (s1 s2 : string) :
  String.length (s1 +:+ s2) = (String.length s1 + String.length s2)%nat.
Proof.
  induction s1 as [|c s1 IH]; [done|].
  change (S (String.length (s1 +:+ s2))
          = S (String.length s1 + String.length s2)).
  by rewrite IH.
Qed.

Lemma ascii_eqb_false (a b : ascii) : Ascii.eqb a b = false → a ≠ b.
Proof. intros H ->. by rewrite Ascii.eqb_refl in H. Qed.

(** A separator cannot start at a character other than its first. *)
Lemma prefix_other_char (c0 c : ascii) (sep r : string) :
  Ascii.eqb c0 c = false → String.prefix (String c0 sep) (String c r) = false.
Proof.
  intros H%ascii_eqb_false. simpl. by destruct (ascii_dec c0 c).
Qed.

(** Splitting runs over a stretch without the separator's first character. *)
Lemma split_go_skip (c0 : ascii) (sep body cur s : string) :
  has_char c0 body = false →
  split_go (String c0 sep) 0 cur (body +:+ s)
  = split_go (String c0 sep) 0 (cur +:+ body) s.
Proof.
  revert cur. induction body as [|c body IH]; intros cur Hno.
  { by rewrite str_app_nil_r. }
  simpl in Hno. apply orb_false_elim in Hno as [Hc Hno].
  change (String c body +:+ s) with (String c (body +:+ s)).
  cbn [split_go]. rewrite (prefix_other_char c0 c sep _ Hc).
  rewrite IH by done. f_equal. rewrite str_app_assoc. done.
Qed.

Lemma split_go_no_match (c0 : ascii) (sep cur s : string) :
  has_char c0 s = false → split_go (String c0 sep) 0 cur s = [cur +:+ s].
Proof.
  intros Hno. rewrite <- (str_app_nil_r s) at 1.
  by rewrite split_go_skip.
Qed.

(** A prefix found before a character it does not contain lies before it. *)
Lemma prefix_before_char (p s t : string) (c : ascii) :
  has_char c p = false → String.prefix p (s +:+ String c t) = true →
  String.prefix p s = true.
Proof.
  revert s. induction p as [|a p IH]; intros s Hno Hpre.
  { by destruct s. }
  simpl in Hno. apply orb_false_elim in Hno as [Hc Hno].
  destruct s as [|b s]; simpl in *.
  - destruct (ascii_dec a c) as [->|]; [|done]. by rewrite Ascii.eqb_refl in Hc.
  - destruct (ascii_dec a b); [|done]. by apply IH.
Qed.

Lemma py_lstrip_idem (s : string) : py_lstrip (py_lstrip s) = py_lstrip s.
Proof.
  induction s as [|c s IH]; simpl; [done|].
  destruct (py_isspace c) eqn:E; [done|]. simpl. by rewrite E.
Qed.

Lemma py_rstrip_idem (s : string) : py_rstrip (py_rstrip s) = py_rstrip s.
Proof.
  induction s as [|c s IH]; simpl; [done|].
  destruct (py_rstrip s) as [|c' r'] eqn:E.
  - destruct (py_isspace c) eqn:Hc; simpl; [done|]. by rewrite Hc.
  - remember (String c' r') as t eqn:Ht. simpl. rewrite IH. by subst t.
Qed.

(** Stripping on the right keeps a first character that is no white space. *)
Lemma py_rstrip_head (c : ascii) (s : string) :
  py_isspace c = false → ∃ r, py_rstrip (String c s) = String c r.
Proof.
  intros Hc. simpl. destruct (py_rstrip s); [rewrite Hc|]; eauto.
Qed.

Lemma py_strip_idem (s : string) : py_strip (py_strip s) = py_strip s.
Proof.
  unfold py_strip.
  assert (py_lstrip (py_rstrip (py_lstrip s)) = py_rstrip (py_lstrip s)) as ->;
    [|apply py_rstrip_idem].
  induction s as [|c s IH]; simpl; [done|].
  destruct (py_isspace c) eqn:Hc; [done|].
  destruct (py_rstrip_head c s Hc) as [r ->]. simpl. by rewrite Hc.
Qed.

Lemma str_app_cons (c : ascii) (s t : string) : String c s +:+ t = String c (s +:+ t).
Proof. done. Qed.

Lemma str_app_nil_l (t : string) : "" +:+ t = t.
Proof. done. Qed.

Lemma prefix_cons_same (c : ascii) (p s : string) :
  String.prefix (String c p) (String c s) = String.prefix p s.
Proof. simpl. by destruct (ascii_dec c c). Qed.

Lemma prefix_nil (s : string) : String.prefix "" s = true.
Proof. by destruct s. Qed.

Lemma prefix_cons_no_char (c : ascii) (p s : string) :
  has_char c s = false → String.prefix (String c p) s = false.
Proof.
  destruct s as [|c' s]; [done|]. simpl has_char.
  intros [Hc _]%orb_false_elim. by apply prefix_other_char.
Qed.

(** ** Cleaning the generator's answer *)

(** The piece after a [```json] fence: the body, alone or with the rest of
    the text, when neither holds a backtick. *)
Lemma split_json_fence_body (body tail : string) :
  has_char "`" body = false → has_char "`" tail = false →
  ∃ x rest,
    split_go "```json" 0 "" (body +:+ "```" +:+ tail) = (body +:+ x) :: rest
    ∧ (x = "" ∨ x = "```" +:+ tail).
Proof.
  intros Hbody Htail. rewrite split_go_skip, str_app_nil_l by done.
  rewrite !str_app_cons, str_app_nil_l. cbn [split_go].
  destruct (String.prefix "```json" _) eqn:Hfirst.
  { exists "", (split_go "```json" (String.length "```json" - 1) ""
                  (String "`" (String "`" tail))).
    rewrite str_app_nil_r. eauto. }
  rewrite !prefix_cons_same, (prefix_cons_no_char "`" "json" tail Htail).
  rewrite (prefix_cons_no_char "`" "`json" tail Htail).
  rewrite split_go_no_match by done.
  exists ("```" +:+ tail), []. split; [|by right].
  by rewrite !str_app_assoc.
Qed.

(** The first piece of a text cut at the closing fence is the body. *)
Lemma split_fence_head (body tail : string) :
  has_char "`" body = false →
  ∃ rest, split_go "```" 0 "" (body +:+ "```" +:+ tail) = body :: rest.
Proof.
  intros Hbody. rewrite split_go_skip, str_app_nil_l by done.
  rewrite !str_app_cons, str_app_nil_l. cbn [split_go].
  rewrite !prefix_cons_same, prefix_nil. eauto.
Qed.

(** X1.  A fenced answer is unwrapped: when the stripped answer is a
    [```json] fence, a body without backtick, the closing fence and a rest
    without backtick, or a bare fence, a body without backtick that does not
    start with "json", the closing fence and any rest, the text handed to the
    decoder is the stripped body. *)
Theorem fenced_answer_is_unwrapped (text body tail : string) :
  has_char "`" body = false →
  (py_strip text = "```json" +:+ body +:+ "```" +:+ tail
   ∧ has_char "`" tail = false)
  ∨ (py_strip text = "```" +:+ body +:+ "```" +:+ tail
     ∧ py_startswith "json" body = false) →
  clean_response text = Returned (py_strip body).
Proof.
  intros Hbody [[Htext Htail]|[Htext Hjson]]; unfold clean_response;
    rewrite Htext; set (R := body +:+ "```" +:+ tail).
  - assert (py_startswith "```json" ("```json" +:+ R) = true) as ->.
    { unfold py_startswith. rewrite !str_app_cons, str_app_nil_l.
      rewrite !prefix_cons_same. apply prefix_nil. }
    unfold py_split. rewrite !str_app_cons, str_app_nil_l. cbn [split_go].
    rewrite !prefix_cons_same, prefix_nil.
    cbn [String.length Nat.sub split_go]. subst R.
    destruct (split_json_fence_body body tail Hbody Htail)
      as (x & rest & -> & [->| ->]); cbn [py_index lookup list_lookup obind].
    + rewrite str_app_nil_r, split_go_no_match, str_app_nil_l by done. done.
    + destruct (split_fence_head body tail Hbody) as [rest' ->]. done.
  - assert (py_startswith "```json" ("```" +:+ R) = false) as ->.
    { unfold py_startswith in *. rewrite !str_app_cons, str_app_nil_l.
      rewrite !prefix_cons_same.
      destruct (String.prefix "json" R) eqn:E; [|done]. subst R.
      rewrite !str_app_cons, str_app_nil_l in E.
      apply prefix_before_char in E; [congruence|done]. }
    assert (py_startswith "```" ("```" +:+ R) = true) as ->.
    { unfold py_startswith. rewrite !str_app_cons, str_app_nil_l.
      rewrite !prefix_cons_same. apply prefix_nil. }
    unfold py_split. rewrite !str_app_cons, str_app_nil_l. cbn [split_go].
    rewrite !prefix_cons_same, prefix_nil.
    cbn [String.length Nat.sub split_go]. subst R.
    destruct (split_fence_head body tail Hbody) as [rest ->].
    cbn [py_index lookup list_lookup obind].
    rewrite split_go_no_match, str_app_nil_l by done. done.
Qed.

Lemma fenced_answer_is_unwrapped_witness :
  clean_response "  ```json {} ``` done " = Returned (py_strip " {} ").
Proof.
  apply (fenced_answer_is_unwrapped "  ```json {} ``` done " " {} " " done").
  - reflexivity.
  - left. split; reflexivity.
Defined.

(** X2.  Cleaning never fails, and the text it hands to the decoder has no
    white space at either end. *)
Theorem cleaned_answer_is_stripped (text : string) :
  ∃ cleaned, clean_response text = Returned cleaned ∧ py_strip cleaned = cleaned.
Proof.
  unfold clean_response.
  destruct (py_startswith "```json" (py_strip text)) eqn:Hjson.
  - apply py_split_startswith in Hjson as (second & rest & ->); [|done].
    simpl. destruct (py_split_first "```" second) as (first & rest' & ->).
    simpl. eexists. split; [done|]. apply py_strip_idem.
  - destruct (py_startswith "```" (py_strip text)) eqn:Hfence.
    + apply py_split_startswith in Hfence as (second & rest & ->); [|done].
      simpl. destruct (py_split_first "```" second) as (first & rest' & ->).
      simpl. eexists. split; [done|]. apply py_strip_idem.
    + eexists. split; [done|]. apply py_strip_idem.
Qed.

(** ** Query refinement: answers that decode but do not fit *)

(** X3.  An answer that decodes to a dict without one of the three queries
    makes [_refine_queries] raise a [KeyError] naming the first query that is
    missing, in the order primary, orthogonal_1, orthogonal_2; an answer that
    decodes to anything but a dict makes it raise a [TypeError].  Neither is
    replaced by the fallback. *)
Theorem refine_rejects_unfit_answers w user_query text cleaned decoded :
  generate_queries w user_query = Returned text →
  clean_response text = Returned cleaned →
  json_loads w cleaned = Returned decoded →
  match decoded with
  | JObj m =>
      (m !! "primary" = None →
         _refine_queries w user_query = Raised (Exn KeyError "'primary'"))
      ∧ (is_Some (m !! "primary") → m !! "orthogonal_1" = None →
           _refine_queries w user_query = Raised (Exn KeyError "'orthogonal_1'"))
      ∧ (is_Some (m !! "primary") → is_Some (m !! "orthogonal_1") →
           m !! "orthogonal_2" = None →
           _refine_queries w user_query = Raised (Exn KeyError "'orthogonal_2'"))
  | _ => ∃ message, _refine_queries w user_query = Raised (Exn TypeError message)
  end.
Proof.
  intros Hgen Hclean Hloads. unfold _refine_queries, parse_refined.
  rewrite Hgen. simpl. rewrite Hclean. simpl. rewrite Hloads. simpl.
  destruct decoded as [| | | | | |m]; simpl; eauto.
  repeat split.
  - by intros ->.
  - by intros [? ->] ->.
  - by intros [? ->] [? ->] ->.
Qed.

Lemma refine_rejects_unfit_answers_witness :
  (missing_key_queries !! "primary" = None →
     _refine_queries missing_key_world "q" = Raised (Exn KeyError "'primary'"))
  ∧ (is_Some (missing_key_queries !! "primary") →
       missing_key_queries !! "orthogonal_1" = None →
       _refine_queries missing_key_world "q"
       = Raised (Exn KeyError "'orthogonal_1'"))
  ∧ (is_Some (missing_key_queries !! "primary") →
       is_Some (missing_key_queries !! "orthogonal_1") →
       missing_key_queries !! "orthogonal_2" = None →
       _refine_queries missing_key_world "q"
       = Raised (Exn KeyError "'orthogonal_2'")).
Proof.
  apply (refine_rejects_unfit_answers missing_key_world "q"
           (quoted "{'orthogonal_1': 'a', 'orthogonal_2': 'b'}")
           (quoted "{'orthogonal_1': 'a', 'orthogonal_2': 'b'}")
           (JObj missing_key_queries)).
  - reflexivity.
  - vm_compute. reflexivity.
  - vm_compute. reflexivity.
Defined.

(** ** The calls of a branch *)

(** The loop only fetches, once per hit at most, whatever its outcome. *)
Lemma scrape_calls w hits : ∀ idx acc,
  forallb is_fetch (calls_of (scrape w idx hits acc)) = true
  ∧ (length (calls_of (scrape w idx hits acc)) ≤ length hits)%nat.
Proof.
  induction hits as [|hit rest IH]; intros idx acc; cbn [scrape].
  { done. }
  destruct hit as [| | | | | |m]; try (simpl; split; [done|lia]).
  cbn [py_get]. rewrite !bind_lift_returned.
  destruct (truthy (default (JStr "") (m !! "link"))); cbn [negb].
  2:{ destruct (IH (S idx) acc) as [? ?]. split; [done|simpl; lia]. }
  rewrite fetch_url_content_eq, bind_returned. cbn [calls_of outcome_of fst snd].
  destruct (py_slice_to (default (JStr "No title") (m !! "title")) 50).
  - rewrite bind_lift_returned.
    set (acc' := acc ++ _). destruct (IH (S idx) acc') as [Hf Hl].
    split; [done|]. simpl. lia.
  - rewrite bind_lift_raised. simpl. split; [done|lia].
Qed.

(** A branch starts with its search request and goes on with fetches. *)
Lemma subagent_trace self w q tag :
  ∃ fetches,
    calls_of (_run_research_subagent self w q tag)
      = Search q (num_results self) :: fetches
    ∧ Forall (λ c, is_fetch c = true) fetches.
Proof.
  unfold _run_research_subagent.
  destruct (serper_search_returns self w q) as (sr & -> & _).
  rewrite bind_returned. cbn [calls_of outcome_of fst snd app].
  destruct (_ || _); [by exists []|].
  destruct (py_slice_items (sr_results sr) (num_results self)) as [hits|e];
    [|by exists []].
  rewrite bind_lift_returned, calls_of_bind.
  destruct (scrape_calls w hits 1 []) as [Hf _].
  exists (calls_of (scrape w 1 hits [])). split.
  - destruct (outcome_of (scrape w 1 hits [])); simpl; [|done].
    by rewrite app_nil_r.
  - apply Is_true_true, forallb_True in Hf. eapply Forall_impl; [exact Hf|].
    intros c Hc. by apply Is_true_true.
Qed.

(** ** Concurrent tasks: what the interleaving keeps *)

Lemma interleave_nil (turns : list nat) : interleave turns [] = [].
Proof. induction turns as [|i turns IH]; [done|]. by cbn [interleave]. Qed.

Lemma concat_insert_cons (traces : list (list call)) : ∀ i c rest,
  traces !! i = Some (c :: rest) →
  concat traces ≡ₚ c :: concat (<[i := rest]> traces).
Proof.
  induction traces as [|trace traces IH]; intros [|i] c rest Hi; try done.
  - injection Hi as ->. done.
  - simpl in *. rewrite (IH i c rest Hi). by rewrite Permutation_middle.
Qed.

(** Interleaving loses no call and adds none. *)
Lemma interleave_perm (turns : list nat) : ∀ traces,
  interleave turns traces ≡ₚ concat traces.
Proof.
  induction turns as [|i turns IH]; intros traces; [done|].
  cbn [interleave]. destruct (traces !! i) as [[|c rest]|] eqn:Hi; try apply IH.
  rewrite IH. symmetry. by apply concat_insert_cons.
Qed.

(** Interleaving keeps the order of the calls of each task. *)
Lemma interleave_sublist (turns : list nat) : ∀ traces i trace,
  traces !! i = Some trace → trace `sublist_of` interleave turns traces.
Proof.
  induction turns as [|j turns IH]; intros traces i trace Hi.
  - simpl. apply list_elem_of_split_length in Hi as (l1 & l2 & -> & _).
    rewrite concat_app. simpl. apply sublist_inserts_l, sublist_inserts_r.
    done.
  - cbn [interleave]. destruct (traces !! j) as [[|c rest]|] eqn:Hj; eauto.
    destruct (decide (i = j)) as [->|Hne].
    + rewrite Hj in Hi. injection Hi as <-. apply sublist_skip.
      apply (IH _ j). apply list_lookup_insert_eq. by eapply lookup_lt_Some.
    + apply sublist_cons. apply (IH _ i). by rewrite list_lookup_insert_ne.
Qed.

Lemma fan_out_calls_dict self w (m : gmap string json) :
  fan_out_calls self w (JObj m)
  = interleave (schedule w)
      ((λ tag, calls_of (_run_research_subagent self w (get_or_empty m tag) tag))
         <$> launched m).
Proof.
  unfold fan_out_calls. rewrite create_tasks_dict.
  by rewrite <- list_fmap_compose.
Qed.

(** The fan-out calls the search provider and the content fetcher only. *)
Lemma fan_out_calls_requests self w refined :
  Forall (λ c, is_request c = true) (fan_out_calls self w refined).
Proof.
  unfold fan_out_calls. destruct (create_tasks refined) as [tasks|e]; [|done].
  rewrite interleave_perm. apply Forall_concat, Forall_fmap, Forall_forall.
  intros [q tag] _. simpl.
  destruct (subagent_trace self w q tag) as (fetches & -> & Hf).
  constructor; [done|]. eapply Forall_impl; [exact Hf|].
  by intros [| | |].
Qed.

Lemma requests_write_nothing (calls : list call) :
  Forall (λ c, is_request c = true) calls → omap written_path calls = [].
Proof.
  induction 1 as [|c calls Hc _ IH]; [done|].
  destruct c; try done; simpl; exact IH.
Qed.

(** The searches of the fan-out: one per launched branch. *)
Lemma fan_out_searches self w (m : gmap string json) :
  filter (λ c, is_search c = true) (fan_out_calls self w (JObj m))
  ≡ₚ branch_search self m <$> launched m.
Proof.
  rewrite fan_out_calls_dict, interleave_perm.
  induction (launched m) as [|tag tags IH]; [done|].
  cbn [fmap list_fmap concat]. rewrite filter_app.
  change (list_fmap _ _ ?f tags) with (f <$> tags). rewrite IH.
  destruct (subagent_trace self w (get_or_empty m tag) tag) as (fetches & -> & Hf).
  rewrite filter_cons_True by done.
  replace (filter _ fetches) with (@nil call); [done|].
  clear -Hf. induction Hf as [|c fetches Hc _ IH]; [done|].
  rewrite filter_cons_False; [done|]. by destruct c.
Qed.

(** ** The session directory *)

Lemma save_results_calls w dir reports :
  save_results w dir reports = (results_file dir <$> reports, Returned ()).
Proof.
  induction reports as [|report rest IH]; [done|].
  cbn [save_results]. unfold save_json, perform, ret. simpl. by rewrite IH.
Qed.

(** The calls and the outcome of a run, stage by stage. *)
Lemma orchestrator_run self w user_query :
  let dir := "research_sessions/" +:+ now w in
  research_with_orchestrator self w user_query
  = match _refine_queries w user_query with
    | Raised e => ([Mkdir dir], Raised e)
    | Returned refined =>
        let started :=
          [Mkdir dir; WriteFile (dir +:+ "/" +:+ "queries.json") (QueriesFile refined)]
          ++ fan_out_calls self w refined in
        match _execute_parallel_research self w refined with
        | Raised e => (started, Raised e)
        | Returned reports =>
            let saved := started ++ (results_file dir <$> reports) in
            match _generate_report w user_query refined reports with
            | Raised e => (saved, Raised e)
            | Returned text =>
                (saved ++ [WriteFile (dir +:+ "/final_report.md") (MarkdownFile text)],
                 Returned {| session_dir := dir;
                             queries := refined;
                             results := reports;
                             report := text |})
            end
        end
    end.
Proof.
  unfold research_with_orchestrator, create_session_directory, save_json,
    parallel_research, perform, lift, ret. simpl.
  destruct (_refine_queries w user_query) as [refined|e]; [|done]. simpl.
  destruct (_execute_parallel_research self w refined) as [reports|e]; simpl;
    [|done].
  rewrite save_results_calls. simpl.
  destruct (_generate_report w user_query refined reports); simpl.
  - by rewrite <- !app_assoc.
  - by rewrite !app_nil_r.
Qed.

(** X4.  A run writes no file exactly when the query refinement raises; it
    then raises the same exception and has done nothing but create the session
    directory, which stays empty: it has called neither the search provider
    nor the content fetcher. *)
Theorem failed_refinement_fails_the_run self w user_query :
  (omap written_path (calls_of (research_with_orchestrator self w user_query)) = []
   ↔ ∃ e, _refine_queries w user_query = Raised e)
  ∧ (∀ e, _refine_queries w user_query = Raised e →
       research_with_orchestrator self w user_query
       = ([Mkdir ("research_sessions/" +:+ now w)], Raised e)
       ∧ filter (λ c, is_request c = true)
           (calls_of (research_with_orchestrator self w user_query)) = []).
Proof.
  pose proof (orchestrator_run self w user_query) as Hrun. simpl in Hrun.
  split; [split|].
  - intros Hnone. destruct (_refine_queries w user_query) as [refined|e] eqn:Hr;
      [exfalso|by exists e].
    rewrite Hrun in Hnone.
    destruct (_execute_parallel_research self w refined) as [reports|?];
      [|discriminate Hnone].
    destruct (_generate_report w user_query refined reports);
      discriminate Hnone.
  - intros [e He]. by rewrite Hrun, He.
  - intros e He. by rewrite Hrun, He.
Qed.

(** X5.  Once the query refinement has returned, a run creates the session
    directory, writes queries.json, lets the branches make their calls to the
    search provider and the content fetcher, then writes one results file per
    branch report in the order of the reports, and last, only if the report
    was generated, final_report.md.  A failed report generation leaves the
    queries and the results on disk. *)
Theorem run_artifacts self w user_query refined :
  _refine_queries w user_query = Returned refined →
  let dir := "research_sessions/" +:+ now w in
  ∃ reports,
    _execute_parallel_research self w refined = Returned reports
    ∧ calls_of (research_with_orchestrator self w user_query)
      = [Mkdir dir; WriteFile (dir +:+ "/" +:+ "queries.json") (QueriesFile refined)]
        ++ fan_out_calls self w refined
        ++ (results_file dir <$> reports)
        ++ match _generate_report w user_query refined reports with
           | Returned text =>
               [WriteFile (dir +:+ "/final_report.md") (MarkdownFile text)]
           | Raised _ => []
           end
    ∧ Forall (λ c, is_request c = true) (fan_out_calls self w refined).
Proof.
  intros Hrefine dir. destruct (refine_queries_dict _ _ _ Hrefine) as [m ->].
  destruct (fan_out_returns self w m) as (reports & Hfan & _).
  exists reports. split; [done|]. split; [|apply fan_out_calls_requests].
  rewrite orchestrator_run. simpl. rewrite Hrefine, Hfan.
  destruct (_generate_report w user_query (JObj m) reports); simpl.
  - by rewrite <- !app_assoc.
  - by rewrite app_nil_r.
Qed.

Lemma run_artifacts_witness :
  let dir := "research_sessions/" +:+ now failing_report_world in
  ∃ reports,
    _execute_parallel_research demo_self failing_report_world (JObj demo_queries)
      = Returned reports
    ∧ calls_of (research_with_orchestrator demo_self failing_report_world "q")
      = [Mkdir dir;
         WriteFile (dir +:+ "/" +:+ "queries.json") (QueriesFile (JObj demo_queries))]
        ++ fan_out_calls demo_self failing_report_world (JObj demo_queries)
        ++ (results_file dir <$> reports)
        ++ match _generate_report failing_report_world "q" (JObj demo_queries) reports with
           | Returned text =>
               [WriteFile (dir +:+ "/final_report.md") (MarkdownFile text)]
           | Raised _ => []
           end
    ∧ Forall (λ c, is_request c = true)
        (fan_out_calls demo_self failing_report_world (JObj demo_queries)).
Proof.
  apply (run_artifacts demo_self failing_report_world "q" (JObj demo_queries)).
  vm_compute. reflexivity.
Defined.

(** With all three branches launched, the fan-out returns three reports
    tagged in the canonical order. *)
Lemma fan_out_all_launched self w (m : gmap string json) :
  launched m = query_types →
  ∃ r1 r2 r3,
    _execute_parallel_research self w (JObj m) = Returned [r1; r2; r3]
    ∧ query_type r1 = "primary"
    ∧ query_type r2 = "orthogonal_1"
    ∧ query_type r3 = "orthogonal_2".
Proof.
  intros Hall. destruct (fan_out_returns self w m) as (reports & Hfan & Hproc & _).
  rewrite Hall in Hproc. unfold query_types in Hproc.
  cbn [fmap list_fmap] in Hproc. rewrite process_results_all in Hproc.
  injection Hproc as <-. do 3 eexists. split; [exact Hfan|].
  by rewrite !report_of_query_type.
Qed.

(** X6.  When all three queries of the refined query set are non-empty, a
    run writes every file once: the paths it writes to are pairwise
    distinct. *)
Theorem run_writes_each_file_once self w user_query (m : gmap string json) :
  _refine_queries w user_query = Returned (JObj m) →
  launched m = query_types →
  NoDup (omap written_path (calls_of (research_with_orchestrator self w user_query))).
Proof.
  intros Hrefine Hall.
  destruct (fan_out_all_launched self w m Hall)
    as (r1 & r2 & r3 & Hfan & H1 & H2 & H3).
  rewrite orchestrator_run. simpl. rewrite Hrefine, Hfan.
  unfold results_file.
  destruct (_generate_report w user_query (JObj m) [r1; r2; r3]) as [text|e];
    cbn [calls_of fst omap list_omap written_path app]; rewrite ?omap_app;
    rewrite (requests_write_nothing _ (fan_out_calls_requests self w (JObj m)));
    simpl; rewrite H1, H2, H3.
  - apply (NoDup_fmap_2 (String.app ("research_sessions/" +:+ now w))
             ["/queries.json"; "/research_results_primary.json";
              "/research_results_orthogonal_1.json";
              "/research_results_orthogonal_2.json"; "/final_report.md"]).
    apply (bool_decide_unpack _). by vm_compute.
  - apply (NoDup_fmap_2 (String.app ("research_sessions/" +:+ now w))
             ["/queries.json"; "/research_results_primary.json";
              "/research_results_orthogonal_1.json";
              "/research_results_orthogonal_2.json"]).
    apply (bool_decide_unpack _). by vm_compute.
Qed.

Lemma run_writes_each_file_once_witness :
  NoDup (omap written_path
           (calls_of (research_with_orchestrator demo_self demo_world "q"))).
Proof.
  apply (run_writes_each_file_once demo_self demo_world "q" demo_queries).
  - vm_compute. reflexivity.
  - vm_compute. reflexivity.
Defined.

(** ** The search client: what its dict holds *)

(** X7.  The dict of [serper_search] is of one of two shapes: with an error
    it has an empty result list and neither count nor metadata; without, its
    count is the length of its results and it has metadata. *)
Theorem search_result_shape self w q :
  ∃ sr,
    outcome_of (serper_search self w q) = Returned sr
    ∧ sr_query sr = q
    ∧ match sr_error sr with
      | Some _ =>
          sr_results sr = JArr [] ∧ sr_num_results sr = None
          ∧ sr_search_metadata sr = None
      | None =>
          ∃ n, sr_num_results sr = Some n
               ∧ py_len (sr_results sr) = Returned n
               ∧ is_Some (sr_search_metadata sr)
      end.
Proof.
  unfold serper_search, perform.
  destruct (requests_post w q (num_results self)) as [resp|e]; simpl;
    [|by eexists].
  destruct (raise_for_status resp); simpl; [|by eexists].
  destruct (response_json resp) as [body|e]; simpl; [|by eexists].
  destruct (py_get body "organic" (JArr [])) as [organic|e]; simpl;
    [|by eexists].
  destruct (py_len organic) as [n|e] eqn:Hlen; simpl; [|by eexists].
  destruct (py_get body "searchParameters" (JObj ∅)); simpl; [|by eexists].
  eexists. repeat split; simpl; eauto.
Qed.

(** The search client's dict when the provider's answer is read through. *)
Lemma serper_search_read self w q resp (m : gmap string json) (n : nat) :
  requests_post w q (num_results self) = Returned resp →
  raise_for_status resp = Returned () →
  response_json resp = Returned (JObj m) →
  py_len (default (JArr []) (m !! "organic")) = Returned n →
  serper_search self w q
  = ([Search q (num_results self)],
     Returned {| sr_query := q;
                 sr_num_results := Some n;
                 sr_results := default (JArr []) (m !! "organic");
                 sr_search_metadata := Some (default (JObj ∅) (m !! "searchParameters"));
                 sr_error := None |}).
Proof.
  intros Hpost Hstatus Hjson Hlen. unfold serper_search, perform.
  rewrite Hpost. simpl. rewrite Hstatus. simpl. rewrite Hjson. simpl.
  by rewrite Hlen.
Qed.

(** The search client's dict when reading the provider's answer raises. *)
Lemma serper_search_unread self w q resp e :
  requests_post w q (num_results self) = Returned resp →
  raise_for_status resp = Returned () →
  (body ←! response_json resp;
   organic ←! py_get body "organic" (JArr []);
   py_len organic) = Raised e →
  serper_search self w q
  = ([Search q (num_results self)], Returned (search_failure q e)).
Proof.
  intros Hpost Hstatus Hread. unfold serper_search, perform.
  rewrite Hpost. simpl. rewrite Hstatus. simpl.
  destruct (response_json resp) as [body|e0]; simpl in *; [|congruence].
  destruct (py_get body "organic" (JArr [])) as [organic|e0]; simpl in *;
    [|congruence].
  destruct (py_len organic); simpl in *; congruence.
Qed.

(** X8.  An accepted answer without hits ends the branch with the error
    "No results found": so for a dict without the key organic, and for an
    organic that is an empty list, string or dict. *)
Theorem empty_answer_reports_no_results self w q tag resp (m : gmap string json) (n : nat) :
  requests_post w q (num_results self) = Returned resp →
  raise_for_status resp = Returned () →
  response_json resp = Returned (JObj m) →
  py_len (default (JArr []) (m !! "organic")) = Returned n →
  truthy (default (JArr []) (m !! "organic")) = false →
  _run_research_subagent self w q tag
  = ([Search q (num_results self)],
     Returned {| query_type := tag;
                 query := Some q;
                 num_articles := None;
                 articles := [];
                 error := Some "No results found";
                 search_metadata := None |}).
Proof.
  intros Hpost Hstatus Hjson Hlen Hfalsy.
  pose proof (serper_search_read self w q resp m n Hpost Hstatus Hjson Hlen) as Hsr.
  match type of Hsr with _ = (_, Returned ?r) => set (sr := r) in Hsr end.
  rewrite (subagent_search_failed self w q tag sr); [done|by rewrite Hsr|].
  unfold search_failed. simpl. by rewrite Hfalsy.
Qed.

Lemma empty_answer_reports_no_results_witness :
  _run_research_subagent demo_self (answer_world "{}") (JStr "p") "primary"
  = ([Search (JStr "p") (num_results demo_self)],
     Returned {| query_type := "primary";
                 query := Some (JStr "p");
                 num_articles := None;
                 articles := [];
                 error := Some "No results found";
                 search_metadata := None |}).
Proof.
  apply (empty_answer_reports_no_results demo_self (answer_world "{}") (JStr "p")
           "primary" (demo_response 200 "OK" "{}") ∅ 0).
  - reflexivity.
  - reflexivity.
  - vm_compute. reflexivity.
  - reflexivity.
  - reflexivity.
Defined.

(** X9.  An accepted answer that cannot be read ends the branch with an error
    report carrying the message of the exception: a body that does not
    decode, a body that is no dict (no method [get]), hits that have no
    length.  No fetch is made. *)
Theorem unreadable_answer_is_reported self w q tag resp e :
  requests_post w q (num_results self) = Returned resp →
  raise_for_status resp = Returned () →
  (body ←! response_json resp;
   organic ←! py_get body "organic" (JArr []);
   py_len organic) = Raised e →
  _run_research_subagent self w q tag
  = ([Search q (num_results self)],
     Returned {| query_type := tag;
                 query := Some q;
                 num_articles := None;
                 articles := [];
                 error := Some (exn_str e);
                 search_metadata := None |}).
Proof.
  intros Hpost Hstatus Hread.
  pose proof (serper_search_unread self w q resp e Hpost Hstatus Hread) as Hsr.
  rewrite (subagent_search_failed self w q tag (search_failure q e));
    [done|by rewrite Hsr|done].
Qed.

Lemma unreadable_answer_is_reported_witness :
  _run_research_subagent demo_self (answer_world "[1, 2]") (JStr "p") "primary"
  = ([Search (JStr "p") (num_results demo_self)],
     Returned {| query_type := "primary";
                 query := Some (JStr "p");
                 num_articles := None;
                 articles := [];
                 error := Some (exn_str (Exn AttributeError
                                  "'list' object has no attribute 'get'"));
                 search_metadata := None |}).
Proof.
  apply (unreadable_answer_is_reported demo_self (answer_world "[1, 2]")
           (JStr "p") "primary" (demo_response 200 "OK" "[1, 2]")).
  - reflexivity.
  - reflexivity.
  - vm_compute. reflexivity.
Defined.

(** ** One branch: when it returns, what it calls, what its articles hold *)

(** X10.  A branch returns exactly when its search failed or found nothing,
    or when the top hits are all dicts whose title, where the hit has a link,
    is a string or a list; in every other case it raises. *)
Theorem branch_returns_iff self w q tag :
  (∃ report, outcome_of (_run_research_subagent self w q tag) = Returned report)
  ↔ ∃ sr,
      outcome_of (serper_search self w q) = Returned sr
      ∧ (search_failed sr = true
         ∨ ∃ hits,
             py_slice_items (sr_results sr) (num_results self) = Returned hits
             ∧ forallb hit_ok hits = true).
Proof.
  split.
  - intros [report Hret].
    apply subagent_returned in Hret
      as (sr & Hsr & [(Hfail & _)|(_ & hits & Hhits & Hok & _)]).
    + exists sr. auto.
    + exists sr. split; [done|]. right. exists hits. split; [|done].
      unfold results_to_scrape in Hhits. by rewrite Hsr in Hhits.
  - intros (sr & Hsr & [Hfail|(hits & Hhits & Hok)]).
    + eexists. by rewrite (subagent_search_failed self w q tag sr Hsr Hfail).
    + destruct (search_failed sr) eqn:Hfail.
      * eexists. by rewrite (subagent_search_failed self w q tag sr Hsr Hfail).
      * eexists. by apply (subagent_total self w q tag sr hits).
Qed.

Lemma str_take_nonempty (n : nat) (s : string) :
  s ≠ "" → (1 ≤ String.length (str_take (S n) s))%nat.
Proof. destruct s; [done|]. simpl. lia. Qed.

(** X11.  Every article of a returned report has a rank of at least 1 and a
    truthy URL.  It counts as scraped exactly when its content length is not
    zero; then its preview is a text of 1 to 500 characters followed by
    "...", and otherwise its preview is its snippet. *)
Theorem article_invariants self w q tag report article :
  outcome_of (_run_research_subagent self w q tag) = Returned report →
  article ∈ articles report →
  (1 ≤ position article)%nat
  ∧ truthy (url article) = true
  ∧ (scraped article = true ↔ content_length article ≠ 0%nat)
  ∧ (scraped article = true →
       ∃ text, content_preview article = JStr (text +:+ "...")
               ∧ (1 ≤ String.length text ≤ 500)%nat)
  ∧ (scraped article = false → content_preview article = snippet article).
Proof.
  intros Hret Hin.
  destruct (subagent_article_hit _ _ _ _ _ _ Hret Hin)
    as (sr & organic & m & _ & _ & Hpos & _ & _ & Hurl & Ha).
  split; [done|]. rewrite Ha.
  destruct (fetched w (get_or_empty m "link")) as [content|] eqn:Hf.
  - apply fetched_nonempty in Hf. rewrite article_data_fetched by done.
    cbn [url scraped content_length content_preview snippet].
    split; [done|]. split.
    { split; [|done]. intros _. destruct content; [done|]. simpl. lia. }
    split; [|done]. intros _. exists (str_take 500 content).
    split; [done|]. split; [by apply str_take_nonempty|apply str_take_length].
  - unfold article_data. simpl. split; [done|]. split; [|done].
    split; [done|]. by intros [].
Qed.

Lemma article_invariants_witness :
  (1 ≤ position demo_article_c)%nat
  ∧ truthy (url demo_article_c) = true
  ∧ (scraped demo_article_c = true ↔ content_length demo_article_c ≠ 0%nat)
  ∧ (scraped demo_article_c = true →
       ∃ text, content_preview demo_article_c = JStr (text +:+ "...")
               ∧ (1 ≤ String.length text ≤ 500)%nat)
  ∧ (scraped demo_article_c = false →
       content_preview demo_article_c = snippet demo_article_c).
Proof.
  apply (article_invariants demo_self demo_world (JStr "p") "primary"
           (demo_report (JStr "p") "primary") demo_article_c).
  - vm_compute. reflexivity.
  - vm_compute. right. left.
Defined.

Lemma py_slice_items_length (v : json) (n : Z) (hits : list json) :
  0 ≤ n → py_slice_items v n = Returned hits → Z.of_nat (length hits) ≤ n.
Proof.
  intros Hn. unfold py_slice_items.
  destruct v as [| | | |s|l|]; simpl; try done; intros [= <-].
  - rewrite str_chars_length, str_slice_to_nonneg by done.
    pose proof (str_take_length (Z.to_nat n) s). lia.
  - by apply list_slice_to_length.
Qed.

(** X12.  Whatever its outcome, a branch makes one search request, first,
    and after it nothing but fetches, no more than the limit when the limit
    is not negative. *)
Theorem branch_calls self w q tag :
  ∃ fetches,
    calls_of (_run_research_subagent self w q tag)
      = Search q (num_results self) :: fetches
    ∧ forallb is_fetch fetches = true
    ∧ (0 ≤ num_results self → Z.of_nat (length fetches) ≤ num_results self).
Proof.
  unfold _run_research_subagent.
  destruct (serper_search_returns self w q) as (sr & -> & _).
  rewrite bind_returned. cbn [calls_of outcome_of fst snd app].
  destruct (_ || _).
  { exists []. simpl. repeat split; try done; lia. }
  destruct (py_slice_items (sr_results sr) (num_results self)) as [hits|e] eqn:Hs.
  2:{ exists []. simpl. repeat split; try done; lia. }
  rewrite bind_lift_returned, calls_of_bind.
  destruct (scrape_calls w hits 1 []) as [Hf Hl].
  exists (calls_of (scrape w 1 hits [])).
  split; [|split; [done|]].
  - destruct (outcome_of (scrape w 1 hits [])); simpl; [|done].
    by rewrite app_nil_r.
  - intros Hn. pose proof (py_slice_items_length _ _ _ Hn Hs). lia.
Qed.

(** ** The reports of the fan-out, counted and summarized *)

Lemma fan_out_dict self w refined reports :
  _execute_parallel_research self w refined = Returned reports →
  ∃ m, refined = JObj m.
Proof.
  unfold _execute_parallel_research, create_tasks.
  destruct refined as [| | | | | |m]; try done. eauto.
Qed.

(** Every report of the fan-out is the report of a branch or a fault report,
    and there are three at most. *)
Lemma fan_out_origin self w refined reports :
  _execute_parallel_research self w refined = Returned reports →
  (length reports ≤ 3)%nat
  ∧ Forall (λ report,
              (∃ q tag, outcome_of (_run_research_subagent self w q tag)
                        = Returned report)
              ∨ ∃ tag e, report = fault_report tag e) reports.
Proof.
  intros Hfan. destruct (fan_out_dict _ _ _ _ Hfan) as [m ->].
  destruct (fan_out_returns self w m) as (reports' & Hfan' & _ & Hall).
  rewrite Hfan in Hfan'. injection Hfan' as <-. split.
  - rewrite <- (Forall2_length _ _ _ Hall). apply launched_length.
  - apply Forall2_Forall_r with (Q := λ report,
        (∃ q tag, outcome_of (_run_research_subagent self w q tag) = Returned report)
        ∨ ∃ tag e, report = fault_report tag e) in Hall; [done|].
    apply Forall_forall. intros tag _ report Hreport.
    unfold run_task in Hreport. simpl in Hreport.
    destruct (outcome_of (_run_research_subagent self w (get_or_empty m tag) tag))
      as [branch_report|e] eqn:Hbranch.
    + subst report. left. eauto.
    + destruct Hreport as [tag' ->]. right. eauto.
Qed.

Lemma subagent_count self w q tag report :
  outcome_of (_run_research_subagent self w q tag) = Returned report →
  default 0%nat (num_articles report) = length (articles report).
Proof.
  intros H.
  apply subagent_returned in H
    as (sr & _ & [(_ & -> & _)|(_ & hits & _ & _ & -> & _)]); done.
Qed.

Lemma subagent_articles_bound self w q tag report :
  outcome_of (_run_research_subagent self w q tag) = Returned report →
  0 ≤ num_results self →
  Z.of_nat (length (articles report)) ≤ num_results self.
Proof.
  intros H Hn.
  apply subagent_returned in H
    as (sr & Hsr & [(_ & -> & _)|(_ & hits & Hhits & _ & -> & _)]).
  { simpl. lia. }
  simpl. rewrite emitted_length.
  unfold results_to_scrape in Hhits. rewrite Hsr in Hhits. simpl in Hhits.
  pose proof (py_slice_items_length _ _ _ Hn Hhits).
  pose proof (length_filter (λ hit, has_link hit = true) hits). lia.
Qed.

(** In every report of the fan-out, the article count read with default 0 is
    the number of articles, and that number is within the limit. *)
Lemma fan_out_counts self w refined reports :
  _execute_parallel_research self w refined = Returned reports →
  Forall (λ report,
            default 0%nat (num_articles report) = length (articles report)
            ∧ (0 ≤ num_results self →
                 Z.of_nat (length (articles report)) ≤ num_results self))
         reports.
Proof.
  intros Hfan. destruct (fan_out_origin _ _ _ _ Hfan) as [_ Hall].
  eapply Forall_impl; [exact Hall|]. intros report
    [(q & tag & Hbranch)|(tag & e & ->)].
  - split; [by eapply subagent_count|by eapply subagent_articles_bound].
  - simpl. split; [done|lia].
Qed.

(** X13.  The count the callers announce for the results of a fan-out is the
    number of articles in them, and with a limit that is not negative it is
    at most three times the limit. *)
Theorem announced_total self w refined reports :
  _execute_parallel_research self w refined = Returned reports →
  total_articles reports = sum_list (length ∘ articles <$> reports)
  ∧ (0 ≤ num_results self →
       Z.of_nat (total_articles reports) ≤ 3 * num_results self).
Proof.
  intros Hfan. pose proof (fan_out_counts _ _ _ _ Hfan) as Hcounts.
  destruct (fan_out_origin _ _ _ _ Hfan) as [Hlen _].
  assert (total_articles reports = sum_list (length ∘ articles <$> reports)) as Hsum.
  { unfold total_articles. clear Hlen Hfan.
    induction Hcounts as [|report rest [Hc _] _ IH]; [done|].
    simpl. rewrite Hc. f_equal. exact IH. }
  split; [done|]. intros Hn. rewrite Hsum.
  assert (Z.of_nat (sum_list (length ∘ articles <$> reports))
          ≤ Z.of_nat (length reports) * num_results self) as Hbound.
  { clear Hlen Hfan Hsum.
    induction Hcounts as [|report rest [_ Hb] _ IH]; [simpl; lia|].
    specialize (Hb Hn).
    change (Z.of_nat (length (articles report)
                      + sum_list (length ∘ articles <$> rest))
            ≤ Z.of_nat (S (length rest)) * num_results self).
    nia. }
  nia.
Qed.

Lemma announced_total_witness :
  total_articles demo_reports = sum_list (length ∘ articles <$> demo_reports)
  ∧ (0 ≤ num_results demo_self →
       Z.of_nat (total_articles demo_reports) ≤ 3 * num_results demo_self).
Proof.
  apply (announced_total demo_self demo_world (JObj demo_queries) demo_reports).
  vm_compute. reflexivity.
Defined.

Lemma py_slice_to_returns (v : json) (n : Z) :
  (∃ sliced, py_slice_to v n = Returned sliced) ↔ sliceable v = true.
Proof. destruct v; simpl; split; try done; eauto; by intros [? [=]]. Qed.

Lemma py_slice_to_raises (v : json) (n : Z) e :
  py_slice_to v n = Raised e → exn_class_of e = TypeError.
Proof. destruct v; simpl; intros [= <-]; done. Qed.

Lemma mapM_outcome_returns_iff {A B} (f : A → outcome B) (l : list A) :
  (∃ l', mapM_outcome f l = Returned l') ↔ Forall (λ x, ∃ y, f x = Returned y) l.
Proof.
  split.
  - intros [l' H]. apply mapM_outcome_returned in H.
    induction H; constructor; eauto.
  - induction 1 as [|x rest [y Hy] _ [ys Hys]]; simpl; [eauto|].
    rewrite Hy, Hys. simpl. eauto.
Qed.

Lemma mapM_outcome_raises {A B} (f : A → outcome B) (l : list A) e :
  mapM_outcome f l = Raised e → ∃ x, x ∈ l ∧ f x = Raised e.
Proof.
  induction l as [|x rest IH]; simpl; [done|].
  destruct (f x) as [y|e'] eqn:Hx; simpl.
  - destruct (mapM_outcome f rest) as [ys|e'] eqn:Hrest; simpl; [done|].
    intros [= ->]. destruct (IH eq_refl) as (x' & Hin & Hx').
    exists x'. split; [by right|done].
  - intros [= ->]. exists x. split; [by left|done].
Qed.

Lemma summarize_returns_iff (report : BranchReport) :
  (∃ summary, summarize report = Returned summary)
  ↔ Forall (λ article, sliceable (content_preview article) = true)
           (take 5 (articles report)).
Proof.
  unfold summarize. rewrite list_slice_to_nonneg by lia.
  change (Z.to_nat 5) with 5%nat.
  etrans; [|etrans; [apply (mapM_outcome_returns_iff summarize_article)|]].
  - split.
    + intros [summary H]. apply obind_returned_inv in H as (l & -> & _). eauto.
    + intros [l ->]. simpl. eauto.
  - apply Forall_proper; [|done]. intros article. unfold summarize_article.
    rewrite <- (py_slice_to_returns (content_preview article) 300). split.
    + intros [s H]. apply obind_returned_inv in H as (p & -> & _). eauto.
    + intros [p ->]. simpl. eauto.
Qed.

(** X14.  The aggregate for the report is built exactly when, in every
    branch report, the previews of the first five articles are strings or
    lists; articles after the fifth do not matter.  When it cannot be built,
    [_generate_report] raises a [TypeError], whatever the generator would
    answer. *)
Theorem summary_builds_iff w original refined (reports : list BranchReport) :
  ((∃ summary, build_summary original refined reports = Returned summary)
   ↔ Forall (λ report,
               Forall (λ article, sliceable (content_preview article) = true)
                      (take 5 (articles report))) reports)
  ∧ (∀ e, build_summary original refined reports = Raised e →
       exn_class_of e = TypeError
       ∧ _generate_report w original refined reports = Raised e).
Proof.
  split.
  - unfold build_summary.
    etrans; [|etrans; [apply (mapM_outcome_returns_iff summarize)|]].
    + split.
      * intros [summary H]. apply obind_returned_inv in H as (l & -> & _). eauto.
      * intros [l ->]. simpl. eauto.
    + apply Forall_proper; [|done]. intros report. apply summarize_returns_iff.
  - intros e Hbuild. split; [|unfold _generate_report; by rewrite Hbuild].
    unfold build_summary in Hbuild.
    destruct (mapM_outcome summarize reports) as [l|e'] eqn:Hmap; [done|].
    simpl in Hbuild. injection Hbuild as ->.
    apply mapM_outcome_raises in Hmap as (report & _ & Hreport).
    unfold summarize in Hreport.
    destruct (mapM_outcome summarize_article _) as [l|e'] eqn:Hmap; [done|].
    simpl in Hreport. injection Hreport as ->.
    apply mapM_outcome_raises in Hmap as (article & _ & Harticle).
    unfold summarize_article in Harticle.
    destruct (py_slice_to (content_preview article) 300) eqn:Hslice; [done|].
    simpl in Harticle. injection Harticle as ->.
    by eapply py_slice_to_raises.
Qed.

(** X15.  In the aggregate built from the reports of a fan-out, every branch
    summary names the full number of articles of its report and lists the
    first five of them at most. *)
Theorem summary_counts self w original refined reports summary :
  _execute_parallel_research self w refined = Returned reports →
  build_summary original refined reports = Returned summary →
  Forall2 (λ report branch,
             sum_num_articles branch = length (articles report)
             ∧ length (sum_articles branch) = (length (articles report) `min` 5)%nat)
          reports (results_summary summary).
Proof.
  intros Hfan Hbuild. pose proof (fan_out_counts _ _ _ _ Hfan) as Hcounts.
  unfold build_summary in Hbuild.
  apply obind_returned_inv in Hbuild as (summaries & Hsum & [= <-]). simpl.
  apply mapM_outcome_returned in Hsum.
  clear Hfan. induction Hsum as [|report branch rest rest' Hbranch _ IH].
  { constructor. }
  apply Forall_cons in Hcounts as [[Hcount _] Hcounts].
  constructor; [|by apply IH].
  unfold summarize in Hbranch.
  apply obind_returned_inv in Hbranch as (arts & Harts & [= <-]). simpl.
  split; [done|]. apply mapM_outcome_returned in Harts.
  rewrite <- (Forall2_length _ _ _ Harts), list_slice_to_nonneg by lia.
  rewrite length_take. change (Z.to_nat 5) with 5%nat. lia.
Qed.

Lemma summary_counts_witness :
  ∃ summary,
    build_summary "q" (JObj demo_queries) demo_reports = Returned summary
    ∧ Forall2 (λ report branch,
                 sum_num_articles branch = length (articles report)
                 ∧ length (sum_articles branch)
                   = (length (articles report) `min` 5)%nat)
        demo_reports (results_summary summary).
Proof.
  eexists. split; [vm_compute; reflexivity|].
  apply (summary_counts demo_self demo_world "q" (JObj demo_queries) demo_reports).
  - vm_compute. reflexivity.
  - vm_compute. reflexivity.
Defined.

(** ** Which branches a query set launches *)

Lemma fan_out_nothing_launched self w (m : gmap string json) :
  launched m = [] → _execute_parallel_research self w (JObj m) = Returned [].
Proof.
  intros Hnone. destruct (fan_out_returns self w m) as (reports & Hfan & _ & Hall).
  rewrite Hnone in Hall. by apply Forall2_nil_inv_l in Hall as ->.
Qed.

Lemma fan_out_calls_none self w (m : gmap string json) :
  launched m = [] → fan_out_calls self w (JObj m) = [].
Proof. intros Hnone. by rewrite fan_out_calls_dict, Hnone, interleave_nil. Qed.

(** The searches of a run are those of its fan-out. *)
Lemma run_search_calls self w user_query (m : gmap string json) :
  _refine_queries w user_query = Returned (JObj m) →
  filter (λ c, is_search c = true)
    (calls_of (research_with_orchestrator self w user_query))
  = filter (λ c, is_search c = true) (fan_out_calls self w (JObj m)).
Proof.
  intros Hrefine. rewrite orchestrator_run. simpl. rewrite Hrefine.
  destruct (fan_out_returns self w m) as (reports & -> & _).
  assert (filter (λ c, is_search c = true)
            (results_file ("research_sessions/" +:+ now w) <$> reports) = [])
    as Hsaved.
  { induction reports as [|report rest IH]; [done|]. exact IH. }
  destruct (_generate_report w user_query (JObj m) reports);
    cbn [calls_of fst]; rewrite !filter_cons_False by done;
    rewrite !filter_app, Hsaved; [|by rewrite app_nil_r].
  rewrite filter_cons_False by done. by rewrite filter_nil, !app_nil_r.
Qed.

(** X16.  Once the refinement has returned its dict, a run makes no search
    exactly when none of the three queries is truthy.  Then no branch is
    launched: the run calls neither the search provider nor the content
    fetcher, the report is requested from an aggregate without branch
    summaries, and the run returns a result with an empty list of reports, or
    fails with the fault of that request. *)
Theorem no_query_no_branch self w user_query (m : gmap string json) :
  _refine_queries w user_query = Returned (JObj m) →
  let dir := "research_sessions/" +:+ now w in
  let started :=
    [Mkdir dir; WriteFile (dir +:+ "/" +:+ "queries.json") (QueriesFile (JObj m))] in
  (launched m = []
   ↔ filter (λ c, is_search c = true)
       (calls_of (research_with_orchestrator self w user_query)) = [])
  ∧ (launched m = [] →
     research_with_orchestrator self w user_query
     = match generate_report w {| original_query := user_query;
                                  refined_queries := JObj m;
                                  results_summary := [] |} with
       | Returned text =>
           (started ++ [WriteFile (dir +:+ "/final_report.md") (MarkdownFile text)],
            Returned {| session_dir := dir;
                        queries := JObj m;
                        results := [];
                        report := text |})
       | Raised e => (started, Raised e)
       end).
Proof.
  intros Hrefine dir started. split.
  - rewrite (run_search_calls self w user_query m Hrefine). split.
    + intros Hnone. by rewrite fan_out_calls_none.
    + intros Hsilent. pose proof (fan_out_searches self w m) as Hperm.
      rewrite Hsilent in Hperm. symmetry in Hperm.
      apply Permutation_nil_r in Hperm. by apply fmap_nil_inv in Hperm.
  - intros Hnone. rewrite orchestrator_run. simpl.
    rewrite Hrefine, (fan_out_nothing_launched self w m Hnone).
    rewrite (fan_out_calls_none self w m Hnone).
    unfold _generate_report, build_summary. simpl.
    by destruct (generate_report w _).
Qed.

Lemma no_query_no_branch_witness :
  let dir := "research_sessions/" +:+ now no_query_world in
  let started :=
    [Mkdir dir;
     WriteFile (dir +:+ "/" +:+ "queries.json") (QueriesFile (JObj no_queries))] in
  (launched no_queries = []
   ↔ filter (λ c, is_search c = true)
       (calls_of (research_with_orchestrator demo_self no_query_world "q")) = [])
  ∧ (launched no_queries = [] →
     research_with_orchestrator demo_self no_query_world "q"
     = match generate_report no_query_world
               {| original_query := "q";
                  refined_queries := JObj no_queries;
                  results_summary := [] |} with
       | Returned text =>
           (started ++ [WriteFile (dir +:+ "/final_report.md") (MarkdownFile text)],
            Returned {| session_dir := dir;
                        queries := JObj no_queries;
                        results := [];
                        report := text |})
       | Raised e => (started, Raised e)
       end).
Proof.
  apply (no_query_no_branch demo_self no_query_world "q" no_queries).
  vm_compute. reflexivity.
Defined.

(** X18.  The searches of a run whose refinement returned its dict are, up
    to the order the scheduler gives them, one search per query type whose
    query is truthy, for that query and with the orchestrator's limit: no
    branch searches twice, and no search is made for a query left out. *)
Theorem run_searches self w user_query (m : gmap string json) :
  _refine_queries w user_query = Returned (JObj m) →
  filter (λ c, is_search c = true)
    (calls_of (research_with_orchestrator self w user_query))
  ≡ₚ (λ tag, Search (get_or_empty m tag) (num_results self)) <$> launched m.
Proof.
  intros Hrefine. rewrite (run_search_calls self w user_query m Hrefine).
  apply fan_out_searches.
Qed.

Lemma run_searches_witness :
  filter (λ c, is_search c = true)
    (calls_of (research_with_orchestrator demo_self empty_primary_world "q"))
  ≡ₚ (λ tag, Search (get_or_empty empty_primary_queries tag) (num_results demo_self))
       <$> launched empty_primary_queries.
Proof.
  apply (run_searches demo_self empty_primary_world "q" empty_primary_queries).
  vm_compute. reflexivity.
Defined.

(** X19.  A run makes the calls of every branch it launches, each branch's
    calls in the branch's own order (its search, then its fetches in rank
    order), whatever the interleaving with the other branches. *)
Theorem run_keeps_branch_calls self w user_query (m : gmap string json) tag :
  _refine_queries w user_query = Returned (JObj m) →
  tag ∈ launched m →
  calls_of (_run_research_subagent self w (get_or_empty m tag) tag)
    `sublist_of` calls_of (research_with_orchestrator self w user_query).
Proof.
  intros Hrefine Htag. apply list_elem_of_lookup_1 in Htag as [i Hi].
  assert (calls_of (_run_research_subagent self w (get_or_empty m tag) tag)
            `sublist_of` fan_out_calls self w (JObj m)) as Hsub.
  { rewrite fan_out_calls_dict. apply (interleave_sublist _ _ i).
    by rewrite list_lookup_fmap, Hi. }
  rewrite orchestrator_run. simpl. rewrite Hrefine.
  destruct (fan_out_returns self w m) as (reports & -> & _).
  destruct (_generate_report w user_query (JObj m) reports);
    cbn [calls_of fst]; do 2 apply sublist_cons;
    repeat apply sublist_inserts_r; exact Hsub.
Qed.

Lemma run_keeps_branch_calls_witness :
  calls_of (_run_research_subagent demo_self demo_world
              (get_or_empty demo_queries "orthogonal_2") "orthogonal_2")
    `sublist_of` calls_of (research_with_orchestrator demo_self demo_world "q").
Proof.
  apply (run_keeps_branch_calls demo_self demo_world "q" demo_queries).
  - vm_compute. reflexivity.
  - vm_compute. do 2 right. left.
Defined.

Lemma truthy_nonempty_str (s : string) : s ≠ "" → truthy (JStr s) = true.
Proof. intros H. simpl. by rewrite (proj2 (String.eqb_neq s "")). Qed.

Lemma str_app_nonempty (s suffix : string) : s ≠ "" → s +:+ suffix ≠ "".
Proof. by destruct s. Qed.

(** X17.  After a fallback for a non-empty user query all three branches are
    launched: the fan-out returns three reports, for the user query, for the
    user query followed by " latest research" and for the user query followed
    by " expert analysis", each the report of its branch or the fault report
    with the branch's own tag. *)
Theorem fallback_launches_three self w user_query text e :
  user_query ≠ "" →
  generate_queries w user_query = Returned text →
  parse_refined w text = Raised e →
  is_JSONDecodeError e = true →
  (refined ←! _refine_queries w user_query;
   _execute_parallel_research self w refined)
  = Returned
      [report_of "primary" (run_task self w (JStr user_query, "primary"));
       report_of "orthogonal_1"
         (run_task self w (JStr (user_query +:+ " latest research"), "orthogonal_1"));
       report_of "orthogonal_2"
         (run_task self w (JStr (user_query +:+ " expert analysis"), "orthogonal_2"))].
Proof.
  intros Hne Hgen Hparse He. unfold _refine_queries.
  rewrite Hgen. simpl. rewrite Hparse, He. simpl. unfold fallback_queries.
  match goal with |- _execute_parallel_research _ _ (JObj ?d) = _ => set (m := d) end.
  assert (launched m = query_types) as Hall.
  { unfold launched, query_types. rewrite !filter_cons, filter_nil.
    change (get_or_empty m "primary") with (JStr user_query).
    change (get_or_empty m "orthogonal_1")
      with (JStr (user_query +:+ " latest research")).
    change (get_or_empty m "orthogonal_2")
      with (JStr (user_query +:+ " expert analysis")).
    rewrite !truthy_nonempty_str by (done || by apply str_app_nonempty).
    done. }
  destruct (fan_out_returns self w m) as (reports & -> & Hproc & _).
  rewrite Hall in Hproc. unfold query_types in Hproc.
  cbn [fmap list_fmap] in Hproc. rewrite process_results_all in Hproc.
  by injection Hproc as <-.
Qed.

Lemma fallback_launches_three_witness :
  (refined ←! _refine_queries prose_world "rust async";
   _execute_parallel_research demo_self prose_world refined)
  = Returned
      [report_of "primary" (run_task demo_self prose_world (JStr "rust async", "primary"));
       report_of "orthogonal_1"
         (run_task demo_self prose_world
            (JStr ("rust async" +:+ " latest research"), "orthogonal_1"));
       report_of "orthogonal_2"
         (run_task demo_self prose_world
            (JStr ("rust async" +:+ " expert analysis"), "orthogonal_2"))].
Proof.
  apply (fallback_launches_three demo_self prose_world "rust async"
           "Here are three queries you could try." Json.decode_error).
  - done.
  - reflexivity.
  - vm_compute. reflexivity.
  - reflexivity.
Defined.

(** With a branch left out, two reports can carry one tag, and the second
    results file replaces the first. *)
Example results_file_written_twice :
  omap written_path
    (calls_of (research_with_orchestrator demo_self colliding_world "q"))
  = ["research_sessions/2025-01-01_12-00-00/queries.json";
     "research_sessions/2025-01-01_12-00-00/research_results_orthogonal_1.json";
     "research_sessions/2025-01-01_12-00-00/research_results_orthogonal_1.json";
     "research_sessions/2025-01-01_12-00-00/final_report.md"].
Proof. vm_compute. reflexivity. Qed.
